(** * The comment section: normalizer, comment tree and optimistic mutations

    A shallow embedding of the comment component
    ([transformComment], [transformCommentsResponse], [addComment],
    [toggleCommentLike]) together with the properties its specification
    states about it. *)

From Stdlib Require Import ZArith List String Ascii Bool Lia.
Import ListNotations.
Open Scope Z_scope.

Set Implicit Arguments.

(** ** JavaScript values

    A response body is untyped ([any]).  An object is the record of the
    properties this component ever reads from one.  A scalar property is
    kept at the type its interface declares ([BackendComment],
    [BackendCommentResponse]) and is [None] when the object does not
    carry it; a property that is tested with [Array.isArray] or read
    further is itself a value, [Undefined] when absent. *)

Record object (V : Type) : Type := mkObject {
  o_id : option Z;
  o_material_id : option Z;
  o_user_id : option Z;
  o_username : option string;
  o_user_avatar : option string;
  o_content : option string;
  o_parent_id : option Z;
  o_created_at : option string;
  o_updated_at : option string;
  o_replies : V;
  o_likes_count : option Z;
  o_is_liked : option bool;
  o_items : V;
  o_comments : V;
  o_total : option Z;
  o_pages : option Z;
  o_current_page : option Z;
  o_data : V;
  o_comment : V;
  o_error : option string
}.

Unset Elimination Schemes.
Inductive any : Type :=
| Undefined
| Null
| Bool (b : bool)
| Num (n : Z)
| Str (s : string)
| Arr (elems : list any)
| Obj (o : object any).
Set Elimination Schemes.

(** The object [{}]. *)
Definition emptyObject : object any :=
  mkObject None None None None None None None None None Undefined
           None None Undefined Undefined None None None Undefined Undefined None.

(** Truthiness, as [!v], [v && ...] and [v || ...] test it. *)
Definition truthy (v : any) : bool :=
  match v with
  | Undefined | Null => false
  | Bool b => b
  | Num n => negb (n =? 0)
  | Str s => negb (s =? "")%string
  | Arr _ | Obj _ => true
  end.

Definition truthyN (x : option Z) : bool :=
  match x with Some n => negb (n =? 0) | None => false end.

Definition truthyS (x : option string) : bool :=
  match x with Some s => negb (s =? "")%string | None => false end.

Definition truthyB (x : option bool) : bool :=
  match x with Some b => b | None => false end.

(** [x || y] at a type whose truthiness is [t]. *)
Definition orElse {A : Type} (t : A -> bool) (x y : A) : A :=
  if t x then x else y.

(** [x || d] where [d] is a literal of the property's type. *)
Definition numOr (x : option Z) (d : Z) : Z :=
  match x with Some n => if n =? 0 then d else n | None => d end.

Definition strOr (x : option string) (d : string) : string :=
  match x with Some s => if (s =? "")%string then d else s | None => d end.

Definition boolOr (x : option bool) (d : bool) : bool :=
  match x with Some true => true | _ => d end.

(** [x || null]; [None] is [null] on the result. *)
Definition orNull {A : Type} (t : option A -> bool) (x : option A) : option A :=
  if t x then x else None.

(** ** parseInt(s, 10)

    Leading (ASCII) white space is skipped, one sign is read, then decimal
    digits up to the first other character.  [None] is [NaN]. *)

Definition isSpace (c : ascii) : bool :=
  let n := nat_of_ascii c in
  ((n =? 32) || (n =? 9) || (n =? 10) || (n =? 11) || (n =? 12) || (n =? 13))%nat.

Definition digitOf (c : ascii) : option Z :=
  let n := Z.of_nat (nat_of_ascii c) in
  if (48 <=? n) && (n <=? 57) then Some (n - 48) else None.

Fixpoint skipSpaces (s : string) : string :=
  match s with
  | String c r => if isSpace c then skipSpaces r else s
  | EmptyString => s
  end.

Fixpoint readDigits (acc : option Z) (s : string) : option Z :=
  match s with
  | String c r =>
      match digitOf c with
      | Some d => readDigits (Some (match acc with Some a => 10 * a + d | None => d end)) r
      | None => acc
      end
  | EmptyString => acc
  end.

Definition parseInt (s : string) : option Z :=
  match skipSpaces s with
  | String "-" r => option_map Z.opp (readDigits None r)
  | String "+" r => readDigits None r
  | t => readDigits None t
  end.

(** ** The canonical comment

    The [Comment] type of [types/learning.ts], as the component builds
    and reads it.  A field the normalizer copies from the payload without
    a default is [None] when the payload lacks it ([undefined]);
    [material_id] is also [None] for the [NaN] of an unparsable material
    id (it is only ever copied or tested with [||], which treats both
    alike).  [parent_id = None] is [null].  [is_optimistic = None] is a
    record without the flag. *)

Unset Elimination Schemes.
Inductive Comment : Type := mkComment {
  id : option Z;
  material_id : option Z;
  user_id : option Z;
  username : string;
  parent_id : option Z;
  content : option string;
  likes_count : Z;
  created_at : option string;
  updated_at : option string;
  replies : list Comment;
  is_optimistic : option bool;
  is_liked : bool;
  user_avatar : option string
}.
Set Elimination Schemes.

(** Induction over a comment and all its nested replies. *)
Section CommentInduction.

Variable P : Comment -> Prop.
Hypothesis step : forall c, Forall P (replies c) -> P c.

Fixpoint Comment_ind (c : Comment) : P c :=
  step c
    ((fix all (l : list Comment) : Forall P l :=
        match l with
        | [] => Forall_nil P
        | x :: r => Forall_cons x (Comment_ind x) (all r)
        end) (replies c)).

End CommentInduction.

(** The [materialId] prop, and the [defaultMaterialId] parameter:
    [number | string]. *)
Inductive MaterialId : Type :=
| MNum (n : Z)
| MStr (s : string).

(** [typeof m === 'string' ? parseInt(m, 10) : m] *)
Definition materialNumber (m : MaterialId) : option Z :=
  match m with
  | MStr s => parseInt s
  | MNum n => Some n
  end.

(** ** transformComment

    [now] is the value of [new Date().toISOString()]. *)

Definition placeholder (now : string) (defaultMaterialId : MaterialId) : Comment :=
  {| id := Some (-1);
     material_id :=
       match defaultMaterialId with
       | MStr s => parseInt s
       | MNum n => Some (numOr (Some n) 0)
       end;
     user_id := Some 0;
     username := "Unknown";
     parent_id := None;
     content := Some "Error loading comment"%string;
     likes_count := 0;
     created_at := Some now;
     updated_at := Some now;
     replies := [];
     is_optimistic := Some false;
     is_liked := false;
     user_avatar := None |}.

(** The default of the parameter applies when the argument is undefined. *)
Definition defaultArg (m : option Z) : MaterialId :=
  match m with Some n => MNum n | None => MNum 0 end.

(** The record built from the properties of a truthy payload; [rs] are
    its replies, already normalized. *)
Definition fromProps (o : object any) (rs : list Comment) : Comment :=
  {| id := o_id o;
     material_id := o_material_id o;
     user_id := o_user_id o;
     username := strOr (o_username o) "Anonymous";
     parent_id := orNull truthyN (o_parent_id o);
     content := o_content o;
     likes_count := numOr (o_likes_count o) 0;
     created_at := o_created_at o;
     updated_at := orElse truthyS (o_updated_at o) (o_created_at o);
     user_avatar := orNull truthyS (o_user_avatar o);
     replies := rs;
     is_optimistic := None;
     is_liked := boolOr (o_is_liked o) false |}.

(** A truthy value that is not an object (a number, a string, [true],
    an array) has none of the properties read, so it normalizes as [{}]
    does. *)
Fixpoint transformComment (now : string) (backendComment : any)
    (defaultMaterialId : MaterialId) {struct backendComment} : Comment :=
  match backendComment with
  | Obj o =>
      fromProps o
        match o_replies o with
        | Arr rs =>
            map (fun reply => transformComment now reply (defaultArg (o_material_id o))) rs
        | _ => []
        end
  | Arr _ => fromProps emptyObject []
  | v =>
      if truthy v then fromProps emptyObject []
      else placeholder now defaultMaterialId
  end.

(** ** Exceptions

    A property read on [undefined] or [null] throws a [TypeError]; its
    message is the engine's.  [Failure m] is any other [Error] with
    message [m]. *)

Inductive Thrown : Type :=
| TypeError
| Failure (message : string).

Inductive Exc (A : Type) : Type :=
| Ok (a : A)
| Throw (e : Thrown).
Arguments Throw {A} e.

Definition bind {A B : Type} (m : Exc A) (k : A -> Exc B) : Exc B :=
  match m with
  | Ok a => k a
  | Throw e => Throw e
  end.

Notation "x <- m ;; k" := (bind m (fun x => k))
  (at level 61, m at next level, right associativity).

(** [v.p] for a property holding a value. *)
Definition prop (p : object any -> any) (v : any) : Exc any :=
  match v with
  | Undefined | Null => Throw TypeError
  | Obj o => Ok (p o)
  | _ => Ok Undefined
  end.

(** [v.p] for a scalar property. *)
Definition scalar {A : Type} (p : object any -> option A) (v : any) : Exc (option A) :=
  match v with
  | Undefined | Null => Throw TypeError
  | Obj o => Ok (p o)
  | _ => Ok None
  end.

(** [v && Array.isArray(e)]: the elements of the array when the test
    holds; [e] is not evaluated when [v] is falsy. *)
Definition whenArray (v : any) (e : Exc any) : Exc (option (list any)) :=
  if truthy v then
    x <- e ;;
    Ok (match x with Arr l => Some l | _ => None end)
  else Ok None.

(** [v && e], as a condition. *)
Definition whenTruthy (v : any) (e : Exc any) : Exc bool :=
  if truthy v then x <- e ;; Ok (truthy x) else Ok false.

(** ** transformCommentsResponse *)

Record ListResult : Type := mkListResult {
  items : list Comment;
  total : Z;
  pages : Z;
  current_page : Z
}.

Definition arrayLength {A : Type} (l : list A) : Z := Z.of_nat (List.length l).

Definition transformCommentsResponse (now : string) (backendResponse : any)
    (defaultMaterialId : MaterialId) : Exc ListResult :=
  let each := map (fun comment => transformComment now comment defaultMaterialId) in
  let fallback :=
    Ok {| items := []; total := 0; pages := 1; current_page := 1 |} in
  a <- whenArray backendResponse (prop (@o_items any) backendResponse) ;;
  match a with
  | Some its =>
      t <- scalar (@o_total any) backendResponse ;;
      p <- scalar (@o_pages any) backendResponse ;;
      c <- scalar (@o_current_page any) backendResponse ;;
      Ok {| items := each its;
            total := numOr t 0;
            pages := numOr p 1;
            current_page := numOr c 1 |}
  | None =>
  a <- whenArray backendResponse (prop (@o_comments any) backendResponse) ;;
  match a with
  | Some cs =>
      t <- scalar (@o_total any) backendResponse ;;
      p <- scalar (@o_pages any) backendResponse ;;
      c <- scalar (@o_current_page any) backendResponse ;;
      Ok {| items := each cs;
            total := numOr t (arrayLength cs);
            pages := numOr p 1;
            current_page := numOr c 1 |}
  | None =>
  a <- whenArray backendResponse (Ok backendResponse) ;;
  match a with
  | Some l =>
      Ok {| items := each l; total := arrayLength l; pages := 1; current_page := 1 |}
  | None =>
  nested <- whenTruthy backendResponse (prop (@o_data any) backendResponse) ;;
  if nested then
    data <- prop (@o_data any) backendResponse ;;
    match data with
    | Arr l =>
        Ok {| items := each l; total := arrayLength l; pages := 1; current_page := 1 |}
    | _ =>
    its <- prop (@o_items any) data ;;
    match its with
    | Arr l =>
        t <- scalar (@o_total any) data ;;
        p <- scalar (@o_pages any) data ;;
        c <- scalar (@o_current_page any) data ;;
        Ok {| items := each l;
              total := numOr t (arrayLength l);
              pages := numOr p 1;
              current_page := numOr c 1 |}
    | _ =>
    cs <- prop (@o_comments any) data ;;
    match cs with
    | Arr l =>
        t <- scalar (@o_total any) data ;;
        p <- scalar (@o_pages any) data ;;
        c <- scalar (@o_current_page any) data ;;
        Ok {| items := each l;
              total := numOr t (arrayLength l);
              pages := numOr p 1;
              current_page := numOr c 1 |}
    | _ => fallback
    end end end
  else fallback
  end end end.

(** ** Comparisons of ids *)

(** [comment.id === n] for a number [n]. *)
Definition idIs (x : option Z) (n : Z) : bool :=
  match x with Some i => i =? n | None => false end.

(** [comment.id === parentId]: an id is a number or [undefined], a
    parent id a number or [null]; [undefined === null] is false. *)
Definition idIsParent (x parentId : option Z) : bool :=
  match x, parentId with
  | Some i, Some p => i =? p
  | _, _ => false
  end.

(** [a.id === b.id] for the ids of two comments. *)
Definition idEq (x y : option Z) : bool :=
  match x, y with
  | Some i, Some j => i =? j
  | None, None => true
  | _, _ => false
  end.

(** ** Spreads *)

(** [{...comment, replies: rs}] *)
Definition withReplies (c : Comment) (rs : list Comment) : Comment :=
  {| id := id c; material_id := material_id c; user_id := user_id c;
     username := username c; parent_id := parent_id c; content := content c;
     likes_count := likes_count c; created_at := created_at c;
     updated_at := updated_at c; replies := rs;
     is_optimistic := is_optimistic c; is_liked := is_liked c;
     user_avatar := user_avatar c |}.

(** [{...comment, likes_count: n, is_liked: liked}] *)
Definition withLikes (c : Comment) (n : Z) (liked : bool) : Comment :=
  {| id := id c; material_id := material_id c; user_id := user_id c;
     username := username c; parent_id := parent_id c; content := content c;
     likes_count := n; created_at := created_at c;
     updated_at := updated_at c; replies := replies c;
     is_optimistic := is_optimistic c; is_liked := liked;
     user_avatar := user_avatar c |}.

(** The flag after [{...base, ...over}]: [over]'s when it has one. *)
Definition spreadFlag (base over : Comment) : option bool :=
  match is_optimistic over with
  | Some b => Some b
  | None => is_optimistic base
  end.

(** ** The component's state and surroundings *)

Record State : Type := mkState {
  comments : list Comment;
  totalComments : Z;
  totalPages : Z;
  currentPage : Z;
  isLoading : bool;
  error : option Thrown
}.

Definition setComments (f : list Comment -> list Comment) (st : State) : State :=
  mkState (f (comments st)) (totalComments st) (totalPages st) (currentPage st)
          (isLoading st) (error st).

Definition setTotalComments (f : Z -> Z) (st : State) : State :=
  mkState (comments st) (f (totalComments st)) (totalPages st) (currentPage st)
          (isLoading st) (error st).

Definition setIsLoading (b : bool) (st : State) : State :=
  mkState (comments st) (totalComments st) (totalPages st) (currentPage st)
          b (error st).

Definition setError (e : option Thrown) (st : State) : State :=
  mkState (comments st) (totalComments st) (totalPages st) (currentPage st)
          (isLoading st) e.

(** The user of the auth context. *)
Record User : Type := mkUser {
  u_id : option Z;
  u_username : option string
}.

(** What [localStorage.getItem('user')] and [JSON.parse] give. *)
Inductive StoredUser : Type :=
| NoEntry
| NotJson
| Stored (userData : any).

(** Props, hooks, local storage and the clock, as one call sees them:
    [isoNow] is [new Date().toISOString()], [dateNow] is [Date.now()]. *)
Record Env : Type := mkEnv {
  materialId : MaterialId;
  user : option User;
  isAuthenticated : bool;
  storedUser : StoredUser;
  token : option string;
  isoNow : string;
  dateNow : Z
}.

(** ** The network *)

Inductive Request : Type :=
| PostComment (material : MaterialId) (authorization : string)
              (body_content : string) (body_parent_id : option Z)
| PostLike (commentId : Z) (authorization : string).

(** [response.json()]. *)
Inductive Body : Type :=
| NotParsed (message : string)
| Parsed (v : any).

(** The outcome of [fetch]: it rejects, or resolves to a response with
    its [ok] flag and body; [at_iso] is the clock when the body is
    handled. *)
Inductive Response : Type :=
| Rejected (message : string)
| Replied (ok : bool) (body : Body) (at_iso : string).

(** An asynchronous action with one request: it returns at once, or
    leaves the state [s], issues [req] and resumes with the state
    current at that time and the response.  The body of the response is
    read in the resuming step. *)
Inductive Async (A : Type) : Type :=
| Return (s : State) (a : A)
| Await (s : State) (req : Request) (k : State -> Response -> State * A).

Definition authorizationOf (env : Env) : string :=
  match token env with
  | Some t => if (t =? "")%string then "" else ("Bearer " ++ t)%string
  | None => ""
  end.

(** ** addComment *)

(** The author of an optimistic comment: the context's user, else the
    stored one. *)
Definition authorOf (env : Env) : string * Z :=
  match user env with
  | Some u => (strOr (u_username u) "Anonymous", numOr (u_id u) 0)
  | None =>
      match storedUser env with
      | Stored userData =>
          match scalar (@o_username any) userData, scalar (@o_id any) userData with
          | Ok n, Ok i => (strOr n "Anonymous", numOr i 0)
          | _, _ => ("Anonymous"%string, 0)
          end
      | _ => ("Anonymous"%string, 0)
      end
  end.

Definition optimisticCommentOf (env : Env) (content : string)
    (parentId : option Z) : Comment :=
  {| id := Some (- dateNow env);
     material_id := materialNumber (materialId env);
     user_id := Some (snd (authorOf env));
     username := fst (authorOf env);
     content := Some content;
     likes_count := 0;
     created_at := Some (isoNow env);
     updated_at := Some (isoNow env);
     parent_id := parentId;
     replies := [];
     is_optimistic := Some true;
     is_liked := false;
     user_avatar := None |}.

(** [!parentId] *)
Definition noParent (parentId : option Z) : bool := negb (truthyN parentId).

(** The optimistic insertion. *)
Definition insertOptimistic (parentId : option Z) (optimisticComment : Comment)
    (st : State) : State :=
  if noParent parentId then
    setTotalComments (fun prev => prev + 1)
      (setComments (fun prevComments => optimisticComment :: prevComments) st)
  else
    setComments (fun prevComments =>
      map (fun comment =>
             if idIsParent (id comment) parentId
             then withReplies comment (replies comment ++ [optimisticComment])
             else comment) prevComments) st.

(** The removal of the optimistic comment when the response is not ok. *)
Definition revertOptimistic (parentId : option Z) (optimisticComment : Comment)
    (st : State) : State :=
  if noParent parentId then
    setTotalComments (fun prev => prev - 1)
      (setComments (fun prevComments =>
         filter (fun c => negb (idEq (id c) (id optimisticComment))) prevComments) st)
  else
    setComments (fun prevComments =>
      map (fun comment =>
             if idIsParent (id comment) parentId
             then withReplies comment
                    (filter (fun r => negb (idEq (id r) (id optimisticComment)))
                            (replies comment))
             else comment) prevComments) st.

(** [responseData.data?.comment || responseData] *)
Definition rawCommentOf (responseData : any) : Exc any :=
  data <- prop (@o_data any) responseData ;;
  inner <- match data with
           | Undefined | Null => Ok Undefined
           | _ => prop (@o_comment any) data
           end ;;
  Ok (orElse truthy inner responseData).

(** The record that replaces the optimistic one. *)
Definition mergeAdded (optimisticComment transformedComment : Comment) : Comment :=
  {| id := orElse truthyN (id transformedComment) (id optimisticComment);
     material_id := material_id optimisticComment;
     user_id := user_id optimisticComment;
     username := username optimisticComment;
     content := content optimisticComment;
     created_at := created_at optimisticComment;
     updated_at := updated_at optimisticComment;
     is_optimistic := Some false;
     (* the keys left to the two spreads *)
     parent_id := parent_id transformedComment;
     likes_count := likes_count transformedComment;
     replies := replies transformedComment;
     is_liked := is_liked transformedComment;
     user_avatar := user_avatar transformedComment |}.

Definition replaceOptimistic (parentId : option Z)
    (optimisticComment newComment : Comment) (st : State) : State :=
  if noParent parentId then
    setComments (fun prevComments =>
      map (fun c => if idEq (id c) (id optimisticComment) then newComment else c)
          prevComments) st
  else
    setComments (fun prevComments =>
      map (fun comment =>
             if idIsParent (id comment) parentId
             then withReplies comment
                    (map (fun reply =>
                            if idEq (id reply) (id optimisticComment)
                            then newComment else reply)
                         (replies comment))
             else comment) prevComments) st.

(** The part of [addComment] after [await fetch]: the state it leaves
    and what it returns or throws. *)
Definition addResponded (env : Env) (parentId : option Z)
    (optimisticComment : Comment) (cur : State) (response : Response)
    : State * Exc Comment :=
  match response with
  | Rejected m => (cur, Throw (Failure m))
  | Replied false _ _ =>
      (revertOptimistic parentId optimisticComment cur,
       Throw (Failure "Failed to add comment"))
  | Replied true (NotParsed m) _ => (cur, Throw (Failure m))
  | Replied true (Parsed responseData) now =>
      match rawCommentOf responseData with
      | Throw e => (cur, Throw e)
      | Ok rawComment =>
          let transformedComment := transformComment now rawComment (materialId env) in
          let newComment := mergeAdded optimisticComment transformedComment in
          (replaceOptimistic parentId optimisticComment newComment cur, Ok newComment)
      end
  end.

Definition addComment (env : Env) (content : string) (parentId : option Z)
    (st : State) : Async (option Comment) :=
  if negb (isAuthenticated env) then
    Return (setError (Some (Failure "You must be logged in to add comments")) st) None
  else
    let optimisticComment := optimisticCommentOf env content parentId in
    let started :=
      setIsLoading true
        (insertOptimistic parentId optimisticComment (setError None st)) in
    Await started
      (PostComment (materialId env) (authorizationOf env) content parentId)
      (fun cur response =>
         match addResponded env parentId optimisticComment cur response with
         | (s, Ok newComment) => (setIsLoading false s, Some newComment)
         | (s, Throw e) => (setIsLoading false (setError (Some e) s), None)
         end).

(** ** toggleCommentLike *)

(** [l.length > 0] *)
Definition nonEmpty {A : Type} (l : list A) : bool :=
  match l with [] => false | _ :: _ => true end.

(** The callback of [comments.map] in [updateCommentLikes]. *)
Fixpoint updateCommentLikes_each (targetId : Z) (increment : bool)
    (comment : Comment) {struct comment} : Comment :=
  if idIs (id comment) targetId then
    withLikes comment
      (likes_count comment + (if increment then 1 else -1)) increment
  else if nonEmpty (replies comment) then
    withReplies comment
      (map (updateCommentLikes_each targetId increment) (replies comment))
  else comment.

Definition updateCommentLikes (comments : list Comment) (targetId : Z)
    (increment : bool) : list Comment :=
  map (updateCommentLikes_each targetId increment) comments.

(** An array, even an empty one, is truthy. *)
Definition arrayTruthy {A : Type} (l : list A) : bool := true.

(** [b !== null] for a boolean [b]. *)
Definition notNull (b : bool) : bool := true.

(** One turn of the [for] loop of [findLikedStatus]; [next] is what the
    remaining turns and the final [return false] give. *)
Fixpoint findLikedStatus_each (target : Z) (comment : Comment) (next : bool)
    {struct comment} : bool :=
  if idIs (id comment) target then is_liked comment
  else if arrayTruthy (replies comment) then
    let foundInReplies :=
      fold_right (findLikedStatus_each target) false (replies comment) in
    if notNull foundInReplies then foundInReplies else next
  else next.

Definition findLikedStatus (comments : list Comment) (target : Z) : bool :=
  fold_right (findLikedStatus_each target) false comments.

(** One turn of the [for] loop of [findComment]. *)
Fixpoint findComment_each (target : Z) (comment : Comment)
    (next : option Comment) {struct comment} : option Comment :=
  if idIs (id comment) target then Some comment
  else if arrayTruthy (replies comment) && nonEmpty (replies comment) then
    match fold_right (findComment_each target) None (replies comment) with
    | Some foundInReplies => Some foundInReplies
    | None => next
    end
  else next.

Definition findComment (comments : list Comment) (target : Z) : option Comment :=
  fold_right (findComment_each target) None comments.

(** The record spliced in when the server returns the comment. *)
Definition mergeLiked (isAlreadyLiked : bool) (originalComment : option Comment)
    (transformedComment : Comment) : Comment :=
  match originalComment with
  | Some original =>
      {| id := orElse truthyN (id transformedComment) (id original);
         material_id :=
           orElse truthyN (material_id transformedComment) (material_id original);
         username :=
           if (username transformedComment =? "")%string
           then username original else username transformedComment;
         content := orElse truthyS (content transformedComment) (content original);
         (* a normalized record always has the two, so the server's are taken *)
         likes_count := likes_count transformedComment;
         is_liked := is_liked transformedComment;
         (* the keys left to the two spreads *)
         user_id := user_id transformedComment;
         parent_id := parent_id transformedComment;
         created_at := created_at transformedComment;
         updated_at := updated_at transformedComment;
         replies := replies transformedComment;
         is_optimistic := spreadFlag original transformedComment;
         user_avatar := user_avatar transformedComment |}
  | None => transformedComment
  end.

(** The callback of [comments.map] in [updateCommentWithServerData]. *)
Fixpoint updateCommentWithServerData_each (updatedComment : Comment)
    (comment : Comment) {struct comment} : Comment :=
  if idEq (id comment) (id updatedComment) then updatedComment
  else if nonEmpty (replies comment) then
    withReplies comment
      (map (updateCommentWithServerData_each updatedComment) (replies comment))
  else comment.

Definition updateCommentWithServerData (comments : list Comment)
    (updatedComment : Comment) : list Comment :=
  map (updateCommentWithServerData_each updatedComment) comments.

(** The part of [toggleCommentLike] after [await fetch]; [seen] is the
    tree the call started from. *)
Definition likeResponded (env : Env) (commentId : Z) (seen : list Comment)
    (isAlreadyLiked : bool) (cur : State) (response : Response)
    : State * Exc unit :=
  match response with
  | Rejected m => (cur, Throw (Failure m))
  | Replied false body _ =>
      let reverted :=
        setComments (fun prevComments =>
          updateCommentLikes prevComments commentId isAlreadyLiked) cur in
      (reverted,
       match body with
       | NotParsed m => Throw (Failure m)
       | Parsed errorData =>
           e <- scalar (@o_error any) errorData ;;
           Throw (Failure (strOr e "Failed to toggle comment like"))
       end)
  | Replied true (NotParsed m) _ => (cur, Throw (Failure m))
  | Replied true (Parsed responseData) now =>
      match prop (@o_data any) responseData with
      | Throw e => (cur, Throw e)
      | Ok data =>
          match (if truthy data then prop (@o_comment any) data else Ok data) with
          | Throw e => (cur, Throw e)
          | Ok comment =>
              if truthy comment then
                let transformedComment :=
                  transformComment now comment (materialId env) in
                let originalComment := findComment seen commentId in
                let updatedComment :=
                  mergeLiked isAlreadyLiked originalComment transformedComment in
                (setComments (fun prevComments =>
                   updateCommentWithServerData prevComments updatedComment) cur,
                 Ok tt)
              else (cur, Ok tt)
          end
      end
  end.

Definition toggleCommentLike (env : Env) (commentId : Z) (st : State)
    : Async unit :=
  if negb (isAuthenticated env) then
    Return (setError (Some (Failure "You must be logged in to like comments")) st) tt
  else
    let isAlreadyLiked := findLikedStatus (comments st) commentId in
    let started :=
      setComments (fun prevComments =>
        updateCommentLikes prevComments commentId (negb isAlreadyLiked))
        (setError None st) in
    Await started (PostLike commentId (authorizationOf env))
      (fun cur response =>
         match likeResponded env commentId (comments st) isAlreadyLiked cur response with
         | (s, Ok _) => (s, tt)
         | (s, Throw e) => (setError (Some e) s, tt)
         end).

(** ** Running an action *)

(** The state an action leaves before any response. *)
Definition pending {A : Type} (a : Async A) : State :=
  match a with
  | Return s _ => s
  | Await s _ _ => s
  end.

(** The request an action issues, if any. *)
Definition requestOf {A : Type} (a : Async A) : option Request :=
  match a with
  | Return _ _ => None
  | Await _ req _ => Some req
  end.

(** The state and result once [response] has arrived, nothing else
    having touched the state in between. *)
Definition settle {A : Type} (a : Async A) (response : Response) : State * A :=
  match a with
  | Return s x => (s, x)
  | Await s _ k => k s response
  end.

(** ** The comment tree *)

(** A comment followed by all the comments nested under it. *)
Fixpoint nodesOf (c : Comment) : list Comment :=
  c :: flat_map nodesOf (replies c).

(** Every node of a forest. *)
Definition nodes (l : list Comment) : list Comment := flat_map nodesOf l.

Definition idList (c : Comment) : list Z :=
  match id c with Some i => [i] | None => [] end.

(** The ids of a forest, in the order of [nodes]. *)
Definition definedIds (l : list Comment) : list Z := flat_map idList (nodes l).

Definition negativeId (c : Comment) : bool :=
  match id c with Some n => n <? 0 | None => false end.

Definition positiveId (c : Comment) : bool :=
  match id c with Some n => 0 <? n | None => false end.

(** The flag and the sign of the id agree. *)
Definition wellFlagged (c : Comment) : Prop :=
  (is_optimistic c = Some true -> negativeId c = true) /\
  (negativeId c = true -> is_optimistic c <> Some false) /\
  (positiveId c = true -> is_optimistic c <> Some true).

Definition flagsAgree (st : State) : Prop :=
  Forall wellFlagged (nodes (comments st)).

(** A response to [addComment] under which reconciliation yields a
    persisted record: whenever it is a success carrying a body the
    comment can be read from, that comment normalizes to a positive id
    over replies whose flags agree with their ids. *)
Definition persistedReply (env : Env) (response : Response) : Prop :=
  match response with
  | Replied true (Parsed responseData) now =>
      match rawCommentOf responseData with
      | Ok rawComment =>
          let t := transformComment now rawComment (materialId env) in
          positiveId t = true /\ Forall wellFlagged (nodes (replies t))
      | Throw _ => True
      end
  | _ => True
  end.

(** ** Like counts over a run of toggles *)

Definition likesCounted (c : Comment) : Prop :=
  0 <= likes_count c /\ (is_liked c = true -> 1 <= likes_count c).

(** Ids are unique, counts are not negative, and a liked comment counts
    at least its viewer's like. *)
Definition likeInvariant (l : list Comment) : Prop :=
  NoDup (definedIds l) /\ Forall likesCounted (nodes l).

Definition countsNonNegative (st : State) : Prop :=
  Forall (fun c => 0 <= likes_count c) (nodes (comments st)).

(** Whether a response to a like carries the updated comment
    ([responseData.data && responseData.data.comment]). *)
Definition carriesComment (response : Response) : bool :=
  match response with
  | Replied true (Parsed responseData) _ =>
      match prop (@o_data any) responseData with
      | Ok data =>
          if truthy data then
            match prop (@o_comment any) data with
            | Ok c => truthy c
            | Throw _ => false
            end
          else false
      | Throw _ => false
      end
  | _ => false
  end.

Record LikeOp : Type := mkLikeOp {
  op_env : Env;
  op_id : Z;
  op_response : Response
}.

(** The states one toggle goes through: after the optimistic update,
    then after the response. *)
Definition toggleStates (op : LikeOp) (st : State) : list State :=
  match toggleCommentLike (op_env op) (op_id op) st with
  | Return s _ => [s]
  | Await s _ k => [s; fst (k s (op_response op))]
  end.

(** Every state of a run of toggles, each starting where the previous
    one ended. *)
Fixpoint toggleTrace (ops : list LikeOp) (st : State) : list State :=
  match ops with
  | [] => []
  | op :: rest =>
      toggleStates op st ++ toggleTrace rest (last (toggleStates op st) st)
  end.

(** The walk shared by [updateCommentLikes] and a revert applied on top
    of it: the first comment met on a line with the target id gets [hit],
    the comments above it are rebuilt, everything else is left alone. *)
Fixpoint walk (target : Z) (hit : Comment -> Comment) (comment : Comment)
    {struct comment} : Comment :=
  if idIs (id comment) target then hit comment
  else if nonEmpty (replies comment) then
    withReplies comment (map (walk target hit) (replies comment))
  else comment.

(** What one update does to the comment it hits. *)
Definition bump (increment : bool) (c : Comment) : Comment :=
  withLikes c (likes_count c + (if increment then 1 else -1)) increment.

(** ** The list response, as the specification describes it

    The six tolerated shapes in their priority order, and the array each
    resolves to. *)
Definition spec_resolvedArray (v : any) : option (list any) :=
  match v with
  | Arr l => Some l                                   (* a bare array *)
  | Obj o =>
      match o_items o, o_comments o, o_data o with
      | Arr l, _, _ => Some l                         (* {items:[...]} *)
      | _, Arr l, _ => Some l                         (* {comments:[...]} *)
      | _, _, Arr l => Some l                         (* {data:[...]} *)
      | _, _, Obj d =>
          match o_items d, o_comments d with
          | Arr l, _ => Some l                        (* {data:{items:[...]}} *)
          | _, Arr l => Some l                        (* {data:{comments:[...]}} *)
          | _, _ => None
          end
      | _, _, _ => None
      end
  | _ => None
  end.

Definition emptyResult : ListResult :=
  {| items := []; total := 0; pages := 1; current_page := 1 |}.

(** ** Values used in the examples *)

(** A backend comment object with the given properties and no other. *)
Definition backendComment (i material author : option Z) (name text : option string)
    (created : option string) (likes : option Z) (liked : option bool)
    (rs : any) : any :=
  Obj {| o_id := i; o_material_id := material; o_user_id := author;
         o_username := name; o_user_avatar := None; o_content := text;
         o_parent_id := None; o_created_at := created; o_updated_at := None;
         o_replies := rs; o_likes_count := likes; o_is_liked := liked;
         o_items := Undefined; o_comments := Undefined; o_total := None;
         o_pages := None; o_current_page := None; o_data := Undefined;
         o_comment := Undefined; o_error := None |}.

(** [{items: l}] *)
Definition itemsOnly (l : list any) : any :=
  Obj {| o_id := None; o_material_id := None; o_user_id := None;
         o_username := None; o_user_avatar := None; o_content := None;
         o_parent_id := None; o_created_at := None; o_updated_at := None;
         o_replies := Undefined; o_likes_count := None; o_is_liked := None;
         o_items := Arr l; o_comments := Undefined; o_total := None;
         o_pages := None; o_current_page := None; o_data := Undefined;
         o_comment := Undefined; o_error := None |}.

(** A persisted comment of material 7 by user 3. *)
Definition simpleComment (i : Z) (likes : Z) (liked : bool)
    (rs : list Comment) : Comment :=
  {| id := Some i; material_id := Some 7; user_id := Some 3;
     username := "ann"; parent_id := None; content := Some "text"%string;
     likes_count := likes; created_at := Some "2024-05-01T09:00:00.000Z"%string;
     updated_at := Some "2024-05-01T09:00:00.000Z"%string; replies := rs;
     is_optimistic := None; is_liked := liked; user_avatar := None |}.

Definition stateOf (l : list Comment) : State :=
  {| comments := l; totalComments := arrayLength l; totalPages := 1;
     currentPage := 1; isLoading := false; error := None |}.

(** A signed-in session of user 5 on material 7. *)
Definition signedIn : Env :=
  {| materialId := MNum 7;
     user := Some {| u_id := Some 5; u_username := Some "bob"%string |};
     isAuthenticated := true;
     storedUser := NoEntry;
     token := Some "secret"%string;
     isoNow := "2024-05-01T10:00:00.000Z";
     dateNow := 1714557600000 |}.

Definition signedOut : Env :=
  {| materialId := MNum 7; user := None; isAuthenticated := false;
     storedUser := NoEntry; token := None;
     isoNow := "2024-05-01T10:00:00.000Z"; dateNow := 1714557600000 |}.

(** A thread: comment 1 with the reply 2 under it. *)
Definition thread : list Comment :=
  [simpleComment 1 0 false [simpleComment 2 0 false []]].

(** Two root comments; the viewer likes the second. *)
Definition twoRoots : list Comment :=
  [simpleComment 1 0 false []; simpleComment 2 1 true []].

(** One root comment marked as liked whose count is zero, as the
    normalizer yields for a payload with [is_liked: true] and no
    [likes_count]. *)
Definition likedUncounted : list Comment := [simpleComment 1 0 true []].

(** The record the server sends back for "Hello" posted by user 5: its
    own id and its own clock. *)
Definition created : any :=
  backendComment (Some 42) (Some 7) (Some 5) (Some "bob"%string)
    (Some "Hello"%string) (Some "2024-05-01T10:00:01.250Z"%string)
    None None Undefined.

(** A success body that carries the comment without an id. *)
Definition createdWithoutId : any :=
  backendComment None (Some 7) (Some 5) (Some "bob"%string)
    (Some "Hello"%string) (Some "2024-05-01T10:00:01.250Z"%string)
    None None Undefined.

(** Two comments of a page, as the backend sends them. *)
Definition twoItems : list any :=
  [backendComment (Some 1) (Some 7) (Some 3) (Some "ann"%string)
     (Some "first"%string) (Some "2024-05-01T09:00:00.000Z"%string)
     (Some 2) None Undefined;
   backendComment (Some 2) (Some 7) (Some 4) (Some "cy"%string)
     (Some "second"%string) (Some "2024-05-01T09:30:00.000Z"%string)
     None None Undefined].

(** The optimistic record of "Hello", the server's record once
    normalized, and the record reconciled from the two. *)
Definition helloOptimistic : Comment := optimisticCommentOf signedIn "Hello" None.

Definition helloServer : Comment :=
  transformComment "2024-05-01T10:00:02.000Z" created (materialId signedIn).

Definition helloMerged : Comment := mergeAdded helloOptimistic helloServer.

(** A toggle of comment 2 answered by a response that is not ok, then a
    toggle of comment 1 answered by a success without a comment. *)
Definition twoToggles : list LikeOp :=
  [mkLikeOp signedIn 2
     (Replied false (Parsed (Obj emptyObject)) "2024-05-01T10:00:02.000Z");
   mkLikeOp signedIn 1
     (Replied true (Parsed (Obj emptyObject)) "2024-05-01T10:00:05.000Z")].

(** The stored record again, with a null entry among its replies. *)
Definition createdWithNullReply : any :=
  backendComment (Some 42) (Some 7) (Some 5) (Some "bob"%string)
    (Some "Hello"%string) (Some "2024-05-01T10:00:01.250Z"%string)
    None None (Arr [Null]).

(** A payload that says the viewer likes comment 1 and gives no count. *)
Definition likedPayload : any :=
  backendComment (Some 1) (Some 7) (Some 3) (Some "ann"%string)
    (Some "text"%string) (Some "2024-05-01T09:00:00.000Z"%string)
    None (Some true) Undefined.

(** Two root comments under the same id, the first one liked. *)
Definition sameIdTwice : list Comment :=
  [simpleComment 1 1 true []; simpleComment 1 0 false []].

(** ** Induction over a payload

    The replies of an object are the only values [transformComment]
    descends into. *)

(** The elements of an array, none for any other value. *)
Definition elements (v : any) : list any :=
  match v with Arr l => l | _ => [] end.

Definition isObject (v : any) : bool :=
  match v with Obj _ => true | _ => false end.

Section PayloadInduction.

Variable P : any -> Prop.
Hypothesis other : forall v, isObject v = false -> P v.
Hypothesis object_case :
  forall o, Forall P (elements (o_replies o)) -> P (Obj o).

Fixpoint payload_ind (v : any) : P v :=
  match v as x return P x with
  | Obj o =>
      @object_case o
        (match o_replies o as x return Forall P (elements x) with
         | Arr l =>
             (fix all (l : list any) : Forall P l :=
                match l with
                | [] => Forall_nil P
                | x :: r => Forall_cons x (payload_ind x) (all r)
                end) l
         | _ => Forall_nil P
         end)
  | Undefined => @other Undefined eq_refl
  | Null => @other Null eq_refl
  | Bool b => @other (Bool b) eq_refl
  | Num n => @other (Num n) eq_refl
  | Str s => @other (Str s) eq_refl
  | Arr l => @other (Arr l) eq_refl
  end.

End PayloadInduction.

(** ** fetchComments *)

Definition setTotalPages (n : Z) (st : State) : State :=
  mkState (comments st) (totalComments st) n (currentPage st)
          (isLoading st) (error st).

Definition setCurrentPage (n : Z) (st : State) : State :=
  mkState (comments st) (totalComments st) (totalPages st) n
          (isLoading st) (error st).

(** The request for a page of comments; it carries no authorization. *)
Inductive ListRequest : Type :=
| GetComments (material : MaterialId) (page per_page : Z).

(** The state [fetchComments] leaves before the request. *)
Definition fetchStarted (st : State) : State :=
  setError None (setIsLoading true st).

(** The part of [fetchComments] after [await fetch], up to the end of
    the [try] block. *)
Definition fetchResponded (env : Env) (cur : State) (response : Response)
    : State * Exc unit :=
  match response with
  | Rejected m => (cur, Throw (Failure m))
  | Replied false (NotParsed m) _ => (cur, Throw (Failure m))
  | Replied false (Parsed errorData) _ =>
      (cur,
       e <- scalar (@o_error any) errorData ;;
       Throw (Failure (strOr e "Failed to fetch comments")))
  | Replied true (NotParsed m) _ => (cur, Throw (Failure m))
  | Replied true (Parsed backendData) now =>
      match transformCommentsResponse now backendData (materialId env) with
      | Throw e => (cur, Throw e)
      | Ok data =>
          (setCurrentPage (current_page data)
             (setTotalPages (pages data)
                (setTotalComments (fun _ => total data)
                   (setComments (fun _ => items data) cur))),
           Ok tt)
      end
  end.

(** [fetchComments(page)]: the state before the request, the request,
    and the state once the response has been handled ([catch] and
    [finally] included). *)
Definition fetchComments (env : Env) (page : Z) (st : State)
    : State * ListRequest * (State -> Response -> State) :=
  (fetchStarted st,
   GetComments (materialId env) page 10,
   fun cur response =>
     match fetchResponded env cur response with
     | (s, Ok _) => setIsLoading false s
     | (s, Throw e) => setIsLoading false (setError (Some e) s)
     end).

(** The state after [fetchComments(page)] and its response, nothing else
    having touched the state in between. *)
Definition fetched (env : Env) (page : Z) (st : State) (response : Response) : State :=
  let '(started, _, k) := fetchComments env page st in k started response.

(** Whether a response to a read is a success whose body could be
    parsed. *)
Definition readable (response : Response) : bool :=
  match response with
  | Replied true (Parsed _) _ => true
  | _ => false
  end.

(** A page of one comment, with its total. *)
Definition onePage : any :=
  Obj {| o_id := None; o_material_id := None; o_user_id := None;
         o_username := None; o_user_avatar := None; o_content := None;
         o_parent_id := None; o_created_at := None; o_updated_at := None;
         o_replies := Undefined; o_likes_count := None; o_is_liked := None;
         o_items := Arr [likedPayload]; o_comments := Undefined;
         o_total := Some 1; o_pages := None; o_current_page := None;
         o_data := Undefined; o_comment := Undefined; o_error := None |}.

(** The comment a response to a like carries, if it carries one
    ([responseData.data && responseData.data.comment]). *)
Definition carriedComment (responseData : any) : option any :=
  match prop (@o_data any) responseData with
  | Ok data =>
      if truthy data then
        match prop (@o_comment any) data with
        | Ok c => if truthy c then Some c else None
        | Throw _ => None
        end
      else None
  | Throw _ => None
  end.

(** No comment of the forest has the id an optimistic comment made now
    would get. *)
Definition freshIn (env : Env) (l : list Comment) : Prop :=
  Forall (fun n => idEq (id n) (Some (- dateNow env)) = false) (nodes l).

(** [{data: {comment: c}}] *)
Definition underDataComment (c : any) : any :=
  Obj {| o_id := None; o_material_id := None; o_user_id := None;
         o_username := None; o_user_avatar := None; o_content := None;
         o_parent_id := None; o_created_at := None; o_updated_at := None;
         o_replies := Undefined; o_likes_count := None; o_is_liked := None;
         o_items := Undefined; o_comments := Undefined; o_total := None;
         o_pages := None; o_current_page := None;
         o_data :=
           Obj {| o_id := None; o_material_id := None; o_user_id := None;
                  o_username := None; o_user_avatar := None; o_content := None;
                  o_parent_id := None; o_created_at := None; o_updated_at := None;
                  o_replies := Undefined; o_likes_count := None; o_is_liked := None;
                  o_items := Undefined; o_comments := Undefined; o_total := None;
                  o_pages := None; o_current_page := None; o_data := Undefined;
                  o_comment := c; o_error := None |};
         o_comment := Undefined; o_error := None |}.

(** Comment 1 as the server has it after the like: seven likes. *)
Definition likedBySeven : any :=
  backendComment (Some 1) (Some 7) (Some 3) (Some "ann"%string)
    (Some "text"%string) (Some "2024-05-01T09:00:00.000Z"%string)
    (Some 7) (Some true) Undefined.

(** ** The two forms

    The drafts of the component: the new comment, the comment being
    replied to and the reply.  [blank s] is the test [!s.trim()], taken
    as a parameter. *)

Record Form : Type := mkForm {
  newComment : string;
  replyTo : option Comment;
  replyContent : string
}.

Definition setNewComment (s : string) (f : Form) : Form :=
  mkForm s (replyTo f) (replyContent f).

Definition setReplyTo (c : option Comment) (f : Form) : Form :=
  mkForm (newComment f) c (replyContent f).

Definition setReplyContent (s : string) (f : Form) : Form :=
  mkForm (newComment f) (replyTo f) s.

(** What a handler does to the forms once [addComment] has returned
    [result]: [after] when a comment came back, nothing otherwise. *)
Definition whenAdded (after : Form -> Form) (result : option Comment)
    : Form -> Form :=
  match result with
  | Some _ => after
  | None => fun f => f
  end.

(** An action followed by the form updates its result calls for. *)
Definition thenForms (after : Form -> Form) (a : Async (option Comment))
    : Async (Form -> Form) :=
  match a with
  | Return s result => Return s (whenAdded after result)
  | Await s req k =>
      Await s req (fun cur response =>
                     (fst (k cur response), whenAdded after (snd (k cur response))))
  end.

Definition handleSubmitComment (blank : string -> bool) (env : Env)
    (form : Form) (st : State) : Async (Form -> Form) :=
  if blank (newComment form) then Return st (fun f => f)
  else
    thenForms (setNewComment "")
      (addComment env (newComment form) None st).

Definition handleSubmitReply (blank : string -> bool) (env : Env)
    (form : Form) (st : State) : Async (Form -> Form) :=
  match replyTo form with
  | Some target =>
      if blank (replyContent form) then Return st (fun f => f)
      else
        thenForms (fun f => setReplyTo None (setReplyContent "" f))
          (addComment env (replyContent form) (id target) st)
  | None => Return st (fun f => f)
  end.

Definition handleReply (comment : Comment) (f : Form) : Form :=
  setReplyContent "" (setReplyTo (Some comment) f).

Definition handleCancelReply (f : Form) : Form :=
  setReplyContent "" (setReplyTo None f).

(** Whether a response to [addComment] makes it return a comment: a
    success whose body parses and is not null. *)
Definition delivers (response : Response) : bool :=
  match response with
  | Replied true (Parsed v) _ =>
      match rawCommentOf v with Ok _ => true | Throw _ => false end
  | _ => false
  end.

(** ** ContentRenderer: breaking long words

    The processing of one text node.  A text is the list of its UTF-16
    code units. *)

(** The code units [\s] matches. *)
Definition isWhiteSpace (u : Z) : bool :=
  ((9 <=? u) && (u <=? 13)) || (u =? 32) || (u =? 160) || (u =? 5760)
  || ((8192 <=? u) && (u <=? 8202)) || (u =? 8232) || (u =? 8233)
  || (u =? 8239) || (u =? 8287) || (u =? 12288) || (u =? 65279).

(** The space and the zero-width space ['\u200B']. *)
Definition spaceUnit : Z := 32.
Definition zeroWidthSpace : Z := 8203.

Definition startsWithSpace (s : list Z) : bool :=
  match s with c :: _ => isWhiteSpace c | [] => false end.

(** [text.split(/\s+/)]: the pieces between the maximal runs of white
    space; a text that starts or ends with white space has an empty first
    or last piece. *)
Fixpoint splitOnSpaces (text : list Z) : list (list Z) :=
  match text with
  | [] => [[]]
  | c :: r =>
      if isWhiteSpace c then
        if startsWithSpace r then splitOnSpaces r else [] :: splitOnSpaces r
      else
        match splitOnSpaces r with
        | w :: ws => (c :: w) :: ws
        | [] => [[c]]
        end
  end.

(** [word.length > 20] *)
Definition isLong (word : list Z) : bool := (20 <? List.length word)%nat.

(** The inner loop from index [j] on, [len] being [word.length]: one
    text node for each code unit, and one for a zero-width space after
    every tenth that is not the last. *)
Fixpoint breakFrom (j len : nat) (rest : list Z) : list (list Z) :=
  match rest with
  | [] => []
  | c :: r =>
      [c] ::
      (if ((j <? len - 1) && ((j + 1) mod 10 =? 0))%nat
       then [zeroWidthSpace] :: breakFrom (S j) len r
       else breakFrom (S j) len r)
  end.

(** The text nodes appended for one word. *)
Definition wordNodes (word : list Z) : list (list Z) :=
  if isLong word then breakFrom 0 (List.length word) word else [word].

(** The outer loop: the nodes of each word, and a space after each word
    but the last. *)
Fixpoint fragmentOf (words : list (list Z)) : list (list Z) :=
  match words with
  | [] => []
  | [w] => wordNodes w
  | w :: ws => wordNodes w ++ [spaceUnit] :: fragmentOf ws
  end.

(** The text nodes that replace a text node, when it has a long word. *)
Definition breakLongWords (text : list Z) : option (list (list Z)) :=
  if existsb isLong (splitOnSpaces text)
  then Some (fragmentOf (splitOnSpaces text))
  else None.

(** The words with one space between them. *)
Fixpoint joinWithSpace (words : list (list Z)) : list Z :=
  match words with
  | [] => []
  | [w] => w
  | w :: ws => w ++ spaceUnit :: joinWithSpace ws
  end.

Definition visible (l : list Z) : list Z :=
  filter (fun u => negb (u =? zeroWidthSpace)) l.

(** The longest stretch without a zero-width space, [cur] code units
    being already counted. *)
Fixpoint longestStretch (cur : nat) (l : list Z) : nat :=
  match l with
  | [] => cur
  | u :: r =>
      if u =? zeroWidthSpace then Nat.max cur (longestStretch 0 r)
      else longestStretch (S cur) r
  end.

(** A word of twenty-five letters. *)
Definition longWord : list Z := repeat 97 25.

(** ** The route handlers: the authorization they forward *)


(** [s.split(sep)] for a one-character separator. *)
Fixpoint splitOn (sep : ascii) (s : string) : list string :=
  match s with
  | EmptyString => [EmptyString]
  | String c r =>
      if Ascii.eqb c sep then EmptyString :: splitOn sep r
      else
        match splitOn sep r with
        | w :: ws => String c w :: ws
        | [] => [String c EmptyString]
        end
  end.

Fixpoint hasSpace (s : string) : bool :=
  match s with
  | EmptyString => false
  | String c r => Ascii.eqb c " " || hasSpace r
  end.

(** What a handler does before it reads any response: it answers at
    once, or it calls the backend with an authorization and a query. *)
Inductive Handled : Type :=
| Respond (status : Z) (message : string)
| CallBackend (authorization : string) (limit offset : string).

Definition paramOr (x : option string) (d : string) : string :=
  match x with Some s => if (s =? "")%string then d else s | None => d end.

(** The handler of the activities of a user, up to its call of the
    backend.  A missing second piece of the header would read
    [undefined]. *)
Definition activitiesHandler (authHeader limit offset : option string) : Handled :=
  match authHeader with
  | Some h =>
      if (h =? "")%string || negb (String.prefix "Bearer " h) then
        Respond 401 "Missing or invalid authorization header"
      else
        let token := nth 1 (splitOn " " h) "undefined"%string in
        CallBackend ("Bearer " ++ token) (paramOr limit "20") (paramOr offset "0")
  | None => Respond 401 "Missing or invalid authorization header"
  end.

(** ** The route handler that registers for an event *)
















(** ** Runs of toggles whose successes may carry the comment *)

(** What a toggle needs of a success that carries the comment: the
    server's record and its replies have counts that are not negative,
    at least 1 where liked, and the ids of the tree are still unique once
    the record is spliced in. *)
Definition serverRecordFits (op : LikeOp) (st : State) : Prop :=
  isAuthenticated (op_env op) = true ->
  match op_response op with
  | Replied true (Parsed v) now =>
      match carriedComment v with
      | Some c =>
          Forall likesCounted
                 (nodesOf (transformComment now c (materialId (op_env op)))) /\
          NoDup (definedIds (comments (last (toggleStates op st) st)))
      | None => True
      end
  | _ => True
  end.

(** The same along a run, each toggle starting where the previous one
    ended. *)
Fixpoint recordsFit (ops : list LikeOp) (st : State) : Prop :=
  match ops with
  | [] => True
  | op :: rest =>
      serverRecordFits op st /\ recordsFit rest (last (toggleStates op st) st)
  end.

(** The state and result when [response] arrives while the state is
    [cur], other updates having been applied since the request. *)
Definition resume {A : Type} (a : Async A) (cur : State) (response : Response)
    : State * A :=
  match a with
  | Return s x => (s, x)
  | Await _ _ k => k cur response
  end.

(** One root comment, not liked. *)
Definition oneRoot : list Comment := [simpleComment 1 0 false []].

(** A toggle of comment 2 answered by a response that is not ok, then a
    toggle of comment 1 answered by a success that carries the comment. *)
Definition togglesWithRecord : list LikeOp :=
  [mkLikeOp signedIn 2
     (Replied false (Parsed (Obj emptyObject)) "2024-05-01T10:00:02.000Z");
   mkLikeOp signedIn 1
     (Replied true (Parsed (underDataComment likedBySeven))
              "2024-05-01T10:00:05.000Z")].

(** A success that carries comment 1 as liked, with no count, then a
    second toggle of it. *)
Definition togglesWithUncountedRecord : list LikeOp :=
  [mkLikeOp signedIn 1
     (Replied true (Parsed (underDataComment likedPayload))
              "2024-05-01T10:00:02.000Z");
   mkLikeOp signedIn 1
     (Replied true (Parsed (Obj emptyObject)) "2024-05-01T10:00:05.000Z")].


(** * Properties *)

Unset Implicit Arguments.

(** ** The normalizer *)

(** C8. For a null or an undefined payload [transformComment] returns the
    fixed placeholder: id -1, user name "Unknown", content "Error loading
    comment", no replies and a like count of 0.  The result is a comment
    record in every case, never null. *)
Theorem transformComment_null_placeholder :
  forall (now : string) (d : MaterialId),
    transformComment now Null d = placeholder now d /\
    transformComment now Undefined d = placeholder now d /\
    id (placeholder now d) = Some (-1) /\
    username (placeholder now d) = "Unknown"%string /\
    content (placeholder now d) = Some "Error loading comment"%string /\
    replies (placeholder now d) = [] /\
    likes_count (placeholder now d) = 0.
Proof.
  intros now d. repeat split.
Qed.

(** A falsy payload of any kind gets the placeholder as well. *)
Lemma transformComment_falsy :
  forall now v d, truthy v = false -> transformComment now v d = placeholder now d.
Proof.
  intros now v d H.
  destruct v; simpl in *; try reflexivity; try discriminate; now rewrite H.
Qed.

(** The normalized list has one record for each element of the source. *)
Lemma each_length :
  forall now d (l : list any),
    List.length (map (fun comment => transformComment now comment d) l) = List.length l.
Proof.
  intros. apply length_map.
Qed.

(** C7. [transformCommentsResponse] never throws; for a payload in one of
    the six tolerated shapes its items are as many as the elements of the
    resolved array, and for any other payload it returns no items, total 0,
    pages 1 and current page 1. *)
Theorem transformCommentsResponse_total :
  forall (now : string) (v : any) (d : MaterialId),
    exists r,
      transformCommentsResponse now v d = Ok r /\
      match spec_resolvedArray v with
      | Some source => List.length (items r) = List.length source
      | None => r = emptyResult
      end.
Proof.
  intros now v d.
  unfold transformCommentsResponse, whenArray, whenTruthy, emptyResult.
  destruct v as [ | | b | n | s | l | o]; simpl.
  - eexists; split; reflexivity.
  - eexists; split; reflexivity.
  - destruct b; simpl; eexists; split; reflexivity.
  - destruct (n =? 0); simpl; eexists; split; reflexivity.
  - destruct (s =? "")%string; simpl; eexists; split; reflexivity.
  - eexists; split; [reflexivity | apply length_map].
  - destruct o as [? ? ? ? ? ? ? ? ? ? ? ? its cs ? ? ? data ? ?]; simpl.
    clear.
    destruct its; simpl;
      try (eexists; split; [reflexivity | apply length_map]);
      destruct cs; simpl;
      try (eexists; split; [reflexivity | apply length_map]);
      destruct data as [ | | db | dn | ds | dl | o']; simpl;
      try (eexists; split; [reflexivity | first [apply length_map | reflexivity]]);
      try (destruct db; simpl; eexists; split; reflexivity);
      try (destruct (dn =? 0); simpl; eexists; split; reflexivity);
      try (destruct (ds =? "")%string; simpl; eexists; split; reflexivity);
      destruct o' as [? ? ? ? ? ? ? ? ? ? ? ? its' cs' ? ? ? ? ? ?]; simpl;
      destruct its'; simpl;
      try (eexists; split; [reflexivity | apply length_map]);
      destruct cs'; simpl;
      eexists; split; first [reflexivity | apply length_map].
Qed.

(** In the [{comments: [...]}] shape a missing total defaults to the
    length of the array, and missing pages and current page to 1. *)
Lemma comments_shape_defaults :
  forall now d (o : object any) (l : list any) r,
    (forall its, o_items o <> Arr its) ->
    o_comments o = Arr l ->
    transformCommentsResponse now (Obj o) d = Ok r ->
    (o_total o = None -> total r = arrayLength l) /\
    (o_pages o = None -> pages r = 1) /\
    (o_current_page o = None -> current_page r = 1).
Proof.
  intros now d o l r Hi Hc.
  unfold transformCommentsResponse, whenArray; simpl.
  destruct (o_items o) eqn:E; simpl; try (exfalso; eapply Hi; reflexivity);
    rewrite Hc; simpl; intros H; injection H as <-; simpl;
    (repeat split; intros ->; reflexivity).
Qed.

(** In the [{items: [...]}] shape a missing total is 0, whatever the
    array. *)
Lemma items_shape_defaults :
  forall now d (o : object any) (l : list any),
    o_items o = Arr l ->
    transformCommentsResponse now (Obj o) d =
      Ok {| items := map (fun comment => transformComment now comment d) l;
            total := numOr (o_total o) 0;
            pages := numOr (o_pages o) 1;
            current_page := numOr (o_current_page o) 1 |}.
Proof.
  intros now d o l H.
  unfold transformCommentsResponse, whenArray; simpl. rewrite H. reflexivity.
Qed.

(** C6. In the [{items: [...]}] shape a missing total does not default to
    the length of the array: for a page of two comments without a total
    the result has two items and total 0 (pages and current page do
    default to 1). *)
Theorem items_shape_total_defaults_to_zero :
  forall (now : string),
    exists r,
      transformCommentsResponse now (itemsOnly twoItems) (MNum 7) = Ok r /\
      spec_resolvedArray (itemsOnly twoItems) = Some twoItems /\
      List.length (items r) = 2%nat /\
      total r = 0 /\
      pages r = 1 /\
      current_page r = 1.
Proof.
  intros now. eexists. repeat split.
Qed.

(** ** Adding a comment *)

(** C9. A submission (root or reply) made while unauthenticated returns at
    once: no request is issued, the tree is the one before, and the error
    is the message asking to log in. *)
Theorem addComment_unauthenticated :
  forall (env : Env) (content : string) (parentId : option Z) (st : State),
    isAuthenticated env = false ->
    addComment env content parentId st =
      Return (setError (Some (Failure "You must be logged in to add comments")) st) None /\
    requestOf (addComment env content parentId st) = None /\
    comments (pending (addComment env content parentId st)) = comments st /\
    error (pending (addComment env content parentId st)) =
      Some (Failure "You must be logged in to add comments").
Proof.
  intros env content parentId st H.
  unfold addComment. rewrite H. simpl. repeat split.
Qed.

(** A signed-out visitor submits "Hello" on the thread. *)
Lemma addComment_unauthenticated_witness :
  isAuthenticated signedOut = false /\
  requestOf (addComment signedOut "Hello" None (stateOf thread)) = None /\
  comments (pending (addComment signedOut "Hello" None (stateOf thread))) = thread.
Proof.
  split; [reflexivity |].
  split; apply (addComment_unauthenticated signedOut "Hello" None (stateOf thread));
    reflexivity.
Defined.

(** The three updates of [addComment] keep pages and current page, and
    only a root one moves the total. *)
Lemma insertOptimistic_meta :
  forall parentId c st,
    totalComments (insertOptimistic parentId c st) =
      (if noParent parentId then totalComments st + 1 else totalComments st) /\
    totalPages (insertOptimistic parentId c st) = totalPages st /\
    currentPage (insertOptimistic parentId c st) = currentPage st.
Proof.
  intros. unfold insertOptimistic. destruct (noParent parentId); repeat split.
Qed.

Lemma revertOptimistic_meta :
  forall parentId c st,
    totalComments (revertOptimistic parentId c st) =
      (if noParent parentId then totalComments st - 1 else totalComments st) /\
    totalPages (revertOptimistic parentId c st) = totalPages st /\
    currentPage (revertOptimistic parentId c st) = currentPage st.
Proof.
  intros. unfold revertOptimistic. destruct (noParent parentId); repeat split.
Qed.

Lemma replaceOptimistic_meta :
  forall parentId c n st,
    totalComments (replaceOptimistic parentId c n st) = totalComments st /\
    totalPages (replaceOptimistic parentId c n st) = totalPages st /\
    currentPage (replaceOptimistic parentId c n st) = currentPage st.
Proof.
  intros. unfold replaceOptimistic. destruct (noParent parentId); repeat split.
Qed.

Lemma addResponded_meta :
  forall env parentId c cur response,
    noParent parentId = false ->
    totalComments (fst (addResponded env parentId c cur response)) = totalComments cur /\
    totalPages (fst (addResponded env parentId c cur response)) = totalPages cur /\
    currentPage (fst (addResponded env parentId c cur response)) = currentPage cur.
Proof.
  intros env parentId c cur response H.
  destruct response as [m | [ | ] [m | v] now]; simpl; try (repeat split; fail);
    try (pose proof (revertOptimistic_meta parentId c cur) as R;
         rewrite H in R; exact R).
  destruct (rawCommentOf v); simpl; [| repeat split].
  apply replaceOptimistic_meta.
Qed.

(** C10. An authenticated submission issues a request.  For a root
    comment the total shown is one more once the optimistic record is in,
    and one less again once a response that is not ok has removed it.  For
    a reply neither the insertion nor anything done on the response
    changes the total, the pages or the current page. *)
Theorem addComment_total_tracks_roots :
  forall (env : Env) (content : string) (parentId : option Z) (st : State),
    isAuthenticated env = true ->
    exists started req k,
      addComment env content parentId st = Await started req k /\
      (noParent parentId = true ->
         totalComments started = totalComments st + 1 /\
         forall cur body at_iso,
           totalComments (fst (k cur (Replied false body at_iso))) =
             totalComments cur - 1) /\
      (noParent parentId = false ->
         (totalComments started = totalComments st /\
          totalPages started = totalPages st /\
          currentPage started = currentPage st) /\
         forall cur response,
           totalComments (fst (k cur response)) = totalComments cur /\
           totalPages (fst (k cur response)) = totalPages cur /\
           currentPage (fst (k cur response)) = currentPage cur).
Proof.
  intros env content parentId st H.
  unfold addComment. rewrite H. simpl.
  do 3 eexists. split; [reflexivity |].
  set (c := optimisticCommentOf env content parentId).
  split; intros Hp.
  - split.
    + simpl. destruct (insertOptimistic_meta parentId c (setError None st)) as [T _].
      rewrite T, Hp. reflexivity.
    + intros cur body at_iso. simpl.
      destruct (revertOptimistic_meta parentId c cur) as [T _].
      rewrite Hp in T. exact T.
  - split.
    + simpl. destruct (insertOptimistic_meta parentId c (setError None st)) as (T & P & C).
      rewrite Hp in T. auto.
    + intros cur response.
      pose proof (@addResponded_meta env parentId c cur response Hp) as M.
      destruct (addResponded env parentId c cur response) as [s [n | e]]; exact M.
Qed.

(** A root comment on the one-root thread: total 2 while pending, 1 after
    the response that is not ok. *)
Lemma addComment_total_tracks_roots_witness :
  isAuthenticated signedIn = true /\
  totalComments (pending (addComment signedIn "Hello" None (stateOf thread))) = 2 /\
  totalComments
    (fst (settle (addComment signedIn "Hello" None (stateOf thread))
                 (Replied false (Parsed Null) "2024-05-01T10:00:02.000Z"))) = 1.
Proof.
  split; [reflexivity |].
  destruct (addComment_total_tracks_roots signedIn "Hello" None (stateOf thread)
              eq_refl) as (started & req & k & E & R & _).
  rewrite E. simpl.
  destruct (R eq_refl) as [T F].
  split; [exact T |].
  rewrite (F started). rewrite T. reflexivity.
Defined.

(** A reply whose parent is a root comment is appended to that root's
    replies. *)
Lemma insertOptimistic_root_parent :
  forall p c parent st,
    p <> 0 ->
    In parent (comments st) ->
    id parent = Some p ->
    In (withReplies parent (replies parent ++ [c]))
       (comments (insertOptimistic (Some p) c st)).
Proof.
  intros p c parent st Hp Hin Hid.
  unfold insertOptimistic, noParent; simpl.
  destruct (Z.eqb_spec p 0) as [-> | _]; [contradiction |]. simpl.
  apply in_map_iff. exists parent. split; [| exact Hin].
  rewrite Hid; simpl. now rewrite Z.eqb_refl.
Qed.

(** A reply whose parent is not among the roots leaves the tree as it
    is, wherever else the parent may be. *)
Lemma insertOptimistic_no_root_parent :
  forall p c st,
    p <> 0 ->
    Forall (fun r => idIs (id r) p = false) (comments st) ->
    comments (insertOptimistic (Some p) c st) = comments st.
Proof.
  intros p c st Hp Hall.
  unfold insertOptimistic, noParent; simpl.
  destruct (Z.eqb_spec p 0) as [-> | _]; [contradiction |]. simpl.
  induction Hall as [| r l Hr _ IH]; simpl; [reflexivity |].
  rewrite IH. f_equal.
  unfold idIs in Hr. unfold idIsParent. destruct (id r); [now rewrite Hr | reflexivity].
Qed.

(** C1. The reply insertion of [addComment] looks for the parent among
    the root comments only.  In a thread where comment 2 is a reply under
    comment 1, a reply to 2 is not inserted: the tree stays as it was
    although the parent is in it, and the successful response does not
    bring the reply in either. *)
Theorem addComment_reply_to_nested_parent_not_inserted :
  findComment thread 2 = Some (simpleComment 2 0 false []) /\
  comments (pending (addComment signedIn "re" (Some 2) (stateOf thread))) = thread /\
  comments (fst (settle (addComment signedIn "re" (Some 2) (stateOf thread))
                        (Replied true (Parsed created) "2024-05-01T10:00:02.000Z")))
    = thread.
Proof.
  repeat split.
Qed.

(** Whatever the server sends, the reconciled record has the optimistic
    record's material, author, content and dates. *)
Lemma mergeAdded_keeps_optimistic :
  forall o t,
    material_id (mergeAdded o t) = material_id o /\
    user_id (mergeAdded o t) = user_id o /\
    username (mergeAdded o t) = username o /\
    content (mergeAdded o t) = content o /\
    created_at (mergeAdded o t) = created_at o /\
    updated_at (mergeAdded o t) = updated_at o /\
    is_optimistic (mergeAdded o t) = Some false /\
    id (mergeAdded o t) = (if truthyN (id t) then id t else id o).
Proof.
  intros. repeat split.
Qed.

(** C2. The reconciled record does not take the server's value for each
    field the server provides.  When the server answers the post of
    "Hello" with the stored record, whose dates come from its own clock,
    the reconciled record has the server's id and no optimistic flag, but
    its creation and update dates are those of the optimistic record. *)
Theorem addComment_merge_ignores_server_dates :
  snd (settle (addComment signedIn "Hello" None (stateOf []))
              (Replied true (Parsed created) "2024-05-01T10:00:02.000Z"))
    = Some helloMerged /\
  id helloMerged = Some 42 /\
  is_optimistic helloMerged = Some false /\
  created_at helloServer = Some "2024-05-01T10:00:01.250Z"%string /\
  created_at helloMerged = Some "2024-05-01T10:00:00.000Z"%string /\
  updated_at helloServer = Some "2024-05-01T10:00:01.250Z"%string /\
  updated_at helloMerged = Some "2024-05-01T10:00:00.000Z"%string.
Proof.
  repeat split.
Qed.

(** ** Toggling a like *)

(** [findLikedStatus] answers from the first comment of the list alone:
    when its id is not the target, the answer is the one for its replies,
    and the comments after it are not looked at. *)
Lemma findLikedStatus_first_only :
  forall c rest t,
    idIs (id c) t = false ->
    findLikedStatus (c :: rest) t = findLikedStatus (replies c) t.
Proof.
  intros c rest t H.
  unfold findLikedStatus; simpl.
  destruct c; simpl in *. rewrite H. reflexivity.
Qed.

(** C3. The like state read before the optimistic update is not the
    target's when the target is not on the first comment's line.  With
    two roots of which the viewer likes the second, the state read for the
    second is "not liked", so the update applied likes it again: its
    count goes from 1 to 2 and it stays liked. *)
Theorem findLikedStatus_misses_second_root :
  findComment twoRoots 2 = Some (simpleComment 2 1 true []) /\
  findLikedStatus twoRoots 2 = false /\
  comments (pending (toggleCommentLike signedIn 2 (stateOf twoRoots))) =
    [simpleComment 1 0 false []; simpleComment 2 2 true []].
Proof.
  repeat split.
Qed.

(** ** Facts about the nodes of a forest *)

Lemma nodesOf_unfold : forall c, nodesOf c = c :: nodes (replies c).
Proof. destruct c; reflexivity. Qed.

Lemma nodes_cons : forall c l, nodes (c :: l) = c :: nodes (replies c) ++ nodes l.
Proof.
  intros. unfold nodes at 1. simpl. now rewrite nodesOf_unfold.
Qed.

Lemma nodes_app : forall l1 l2, nodes (l1 ++ l2) = nodes l1 ++ nodes l2.
Proof. intros. apply flat_map_app. Qed.

Lemma Forall_nodes_roots :
  forall (P : Comment -> Prop) l,
    Forall P (nodes l) <-> Forall (fun c => Forall P (nodesOf c)) l.
Proof. intros. apply Forall_flat_map. Qed.

Lemma Forall_nodesOf :
  forall (P : Comment -> Prop) c,
    Forall P (nodesOf c) <-> P c /\ Forall P (nodes (replies c)).
Proof.
  intros. rewrite nodesOf_unfold. split.
  - intros H. inversion H; auto.
  - intros [H1 H2]. constructor; assumption.
Qed.

Lemma Forall_filter_keep :
  forall (A : Type) (P : A -> Prop) (f : A -> bool) l,
    Forall P l -> Forall P (filter f l).
Proof.
  intros A P f l H. induction H as [| x l Hx _ IH]; simpl; [constructor |].
  destruct (f x); [constructor |]; assumption.
Qed.

(** A change made root by root keeps a property of all nodes when it
    keeps it on each root's subtree. *)
Lemma Forall_nodes_map :
  forall (P : Comment -> Prop) (f : Comment -> Comment) l,
    (forall c, Forall P (nodesOf c) -> Forall P (nodesOf (f c))) ->
    Forall P (nodes l) -> Forall P (nodes (map f l)).
Proof.
  intros P f l Hf H. apply Forall_nodes_roots. apply Forall_nodes_roots in H.
  apply Forall_map. eapply Forall_impl; [| exact H]. exact Hf.
Qed.

(** ** The optimistic flag and the sign of the id *)

Lemma wellFlagged_withReplies :
  forall c rs, wellFlagged (withReplies c rs) <-> wellFlagged c.
Proof. intros. unfold wellFlagged, negativeId, positiveId. simpl. tauto. Qed.

Lemma wellFlagged_optimistic :
  forall env content parentId,
    0 < dateNow env ->
    Forall wellFlagged (nodesOf (optimisticCommentOf env content parentId)).
Proof.
  intros env content parentId H. rewrite nodesOf_unfold. simpl.
  constructor; [| constructor].
  unfold wellFlagged, negativeId, positiveId; simpl.
  repeat split; intros; try discriminate.
  - apply Z.ltb_lt. lia.
  - apply Z.ltb_lt in H0. lia.
Qed.

Lemma wellFlagged_merged :
  forall o t,
    positiveId t = true ->
    Forall wellFlagged (nodes (replies t)) ->
    Forall wellFlagged (nodesOf (mergeAdded o t)).
Proof.
  intros o t Hp Hr. apply Forall_nodesOf. split; [| exact Hr].
  unfold positiveId in Hp. destruct (id t) as [n |] eqn:E; [| discriminate].
  apply Z.ltb_lt in Hp.
  assert (Hid : id (mergeAdded o t) = Some n).
  { simpl. unfold orElse. rewrite E. simpl.
    destruct (Z.eqb_spec n 0); [lia | reflexivity]. }
  unfold wellFlagged, negativeId, positiveId. rewrite Hid. simpl.
  repeat split; intros; try discriminate.
  apply Z.ltb_lt in H. lia.
Qed.

Lemma insertOptimistic_flags :
  forall parentId c st,
    Forall wellFlagged (nodesOf c) ->
    flagsAgree st -> flagsAgree (insertOptimistic parentId c st).
Proof.
  unfold flagsAgree, insertOptimistic. intros parentId c st Hc H.
  destruct (noParent parentId); simpl.
  - unfold nodes. simpl. apply Forall_app. split; assumption.
  - apply Forall_nodes_map; [| exact H]. intros r Hr.
    destruct (idIsParent (id r) parentId); [| exact Hr].
    apply Forall_nodesOf in Hr. destruct Hr as [Hr1 Hr2].
    apply Forall_nodesOf. simpl. split.
    + now apply wellFlagged_withReplies.
    + rewrite nodes_app. apply Forall_app. split; [exact Hr2 |].
      unfold nodes. simpl. now rewrite app_nil_r.
Qed.

Lemma revertOptimistic_flags :
  forall parentId c st,
    flagsAgree st -> flagsAgree (revertOptimistic parentId c st).
Proof.
  unfold flagsAgree, revertOptimistic. intros parentId c st H.
  destruct (noParent parentId); simpl.
  - apply Forall_nodes_roots. apply Forall_filter_keep.
    now apply Forall_nodes_roots.
  - apply Forall_nodes_map; [| exact H]. intros r Hr.
    destruct (idIsParent (id r) parentId); [| exact Hr].
    apply Forall_nodesOf in Hr. destruct Hr as [Hr1 Hr2].
    apply Forall_nodesOf. simpl. split.
    + now apply wellFlagged_withReplies.
    + apply Forall_nodes_roots. apply Forall_filter_keep.
      now apply Forall_nodes_roots.
Qed.

Lemma replaceOptimistic_flags :
  forall parentId c n st,
    Forall wellFlagged (nodesOf n) ->
    flagsAgree st -> flagsAgree (replaceOptimistic parentId c n st).
Proof.
  unfold flagsAgree, replaceOptimistic. intros parentId c n st Hn H.
  destruct (noParent parentId); simpl.
  - apply Forall_nodes_map; [| exact H]. intros r Hr.
    destruct (idEq (id r) (id c)); assumption.
  - apply Forall_nodes_map; [| exact H]. intros r Hr.
    destruct (idIsParent (id r) parentId); [| exact Hr].
    apply Forall_nodesOf in Hr. destruct Hr as [Hr1 Hr2].
    apply Forall_nodesOf. simpl. split.
    + now apply wellFlagged_withReplies.
    + apply Forall_nodes_map; [| exact Hr2]. intros r' Hr'.
      destruct (idEq (id r') (id c)); assumption.
Qed.

(** C4, as the code has it.  With a clock after the epoch, if the flag
    of every node agrees with the sign of its id, it still does after the
    optimistic insertion, after the removal on a response that is not ok
    and after any thrown error; after the reconciliation it does whenever
    the server's comment normalizes to a positive id over replies where
    they agree. *)
Theorem addComment_keeps_flags :
  forall (env : Env) (content : string) (parentId : option Z) (st : State),
    0 < dateNow env ->
    flagsAgree st ->
    flagsAgree (pending (addComment env content parentId st)) /\
    forall cur response,
      flagsAgree cur ->
      persistedReply env response ->
      match addComment env content parentId st with
      | Return _ _ => True
      | Await _ _ k => flagsAgree (fst (k cur response))
      end.
Proof.
  intros env content parentId st Hnow Hst.
  unfold addComment.
  destruct (isAuthenticated env); simpl; [| split; [exact Hst | trivial]].
  pose proof (@wellFlagged_optimistic env content parentId Hnow) as Hopt.
  set (c := optimisticCommentOf env content parentId) in *.
  split.
  - apply (@insertOptimistic_flags parentId c (setError None st) Hopt Hst).
  - intros cur response Hcur Hresp.
    assert (G : flagsAgree (fst (addResponded env parentId c cur response))).
    { destruct response as [m | [ | ] [m | v] now]; simpl; try exact Hcur;
        try (now apply revertOptimistic_flags).
      simpl in Hresp.
      destruct (rawCommentOf v) as [raw | e]; simpl; [| exact Hcur].
      destruct Hresp as [Hp Hr].
      apply replaceOptimistic_flags; [| exact Hcur].
      now apply wellFlagged_merged. }
    destruct (addResponded env parentId c cur response) as [s [n | e]]; exact G.
Qed.

Ltac flags_by_computation :=
  unfold flagsAgree; simpl; repeat constructor;
  unfold negativeId, positiveId; simpl; intros; discriminate.

(** "Hello" posted on the thread and answered with the stored record. *)
Lemma addComment_keeps_flags_witness :
  0 < dateNow signedIn /\
  flagsAgree (stateOf thread) /\
  persistedReply signedIn (Replied true (Parsed created) "2024-05-01T10:00:02.000Z") /\
  flagsAgree
    (fst (settle (addComment signedIn "Hello" None (stateOf thread))
                 (Replied true (Parsed created) "2024-05-01T10:00:02.000Z"))).
Proof.
  assert (H1 : 0 < dateNow signedIn) by reflexivity.
  assert (H2 : flagsAgree (stateOf thread)) by flags_by_computation.
  assert (H3 : persistedReply signedIn
                 (Replied true (Parsed created) "2024-05-01T10:00:02.000Z")).
  { simpl. split; [reflexivity | constructor]. }
  split; [exact H1 | split; [exact H2 | split; [exact H3 |]]].
  destruct (addComment_keeps_flags signedIn "Hello" None (stateOf thread) H1 H2)
    as [P K].
  exact (K _ _ P H3).
Defined.

(** C4, as stated, fails on the reconciliation: when the success body
    carries the comment without an id, the reconciled record keeps the
    negative optimistic id and has its flag set to false. *)
Lemma addComment_reconciled_without_id_counterexample :
  0 < dateNow signedIn /\
  flagsAgree (stateOf []) /\
  ~ flagsAgree
      (fst (settle (addComment signedIn "Hello" None (stateOf []))
                   (Replied true (Parsed createdWithoutId) "2024-05-01T10:00:02.000Z"))).
Proof.
  split; [reflexivity |]. split; [constructor |].
  intros H. unfold flagsAgree in H. simpl in H.
  inversion H as [| c l Hc _]; subst.
  destruct Hc as (_ & Hneg & _).
  apply Hneg; reflexivity.
Qed.

(** The replies of the server's comment matter as well: a null entry
    among them is normalized to the placeholder, whose id is -1 and whose
    flag is false. *)
Lemma addComment_reconciled_null_reply_breaks_flags :
  ~ flagsAgree
      (fst (settle (addComment signedIn "Hello" None (stateOf []))
                   (Replied true (Parsed createdWithNullReply)
                            "2024-05-01T10:00:02.000Z"))).
Proof.
  intros H. unfold flagsAgree in H. simpl in H.
  inversion H as [| c l _ Hl]; subst.
  inversion Hl as [| c' l' Hc _]; subst.
  destruct Hc as (_ & Hneg & _).
  apply Hneg; reflexivity.
Qed.

(** ** Like counts *)

Lemma updateCommentLikes_each_unfold :
  forall t b c,
    updateCommentLikes_each t b c =
      if idIs (id c) t then bump b c
      else if nonEmpty (replies c)
           then withReplies c (updateCommentLikes (replies c) t b)
           else c.
Proof. destruct c; reflexivity. Qed.

Lemma walk_unfold :
  forall t hit c,
    walk t hit c =
      if idIs (id c) t then hit c
      else if nonEmpty (replies c)
           then withReplies c (map (walk t hit) (replies c))
           else c.
Proof. destruct c; reflexivity. Qed.

(** One update is a walk that bumps the comment it hits. *)
Lemma update_is_walk :
  forall t b c, updateCommentLikes_each t b c = walk t (bump b) c.
Proof.
  intros t b c. induction c as [c IH] using Comment_ind.
  rewrite updateCommentLikes_each_unfold, walk_unfold.
  destruct (idIs (id c) t); [reflexivity |].
  destruct (nonEmpty (replies c)); [| reflexivity].
  f_equal. unfold updateCommentLikes. now apply map_ext_Forall.
Qed.

(** A second update of the same target on top of a first one hits the
    same comments. *)
Lemma update_twice_is_walk :
  forall t b1 b2 c,
    updateCommentLikes_each t b2 (updateCommentLikes_each t b1 c) =
      walk t (fun n => bump b2 (bump b1 n)) c.
Proof.
  intros t b1 b2 c. induction c as [c IH] using Comment_ind.
  rewrite (updateCommentLikes_each_unfold t b1 c), walk_unfold.
  destruct (idIs (id c) t) eqn:Hid.
  - rewrite updateCommentLikes_each_unfold. simpl. now rewrite Hid.
  - destruct (nonEmpty (replies c)) eqn:Hne.
    + rewrite updateCommentLikes_each_unfold. simpl. rewrite Hid.
      unfold updateCommentLikes.
      assert (Hne' : nonEmpty (map (updateCommentLikes_each t b1) (replies c)) = true).
      { destruct (replies c); [discriminate | reflexivity]. }
      rewrite Hne'. unfold withReplies; simpl. f_equal.
      rewrite map_map. now apply map_ext_Forall.
    + rewrite updateCommentLikes_each_unfold. now rewrite Hid, Hne.
Qed.

Lemma definedIds_cons :
  forall c l, definedIds (c :: l) = idList c ++ definedIds (replies c) ++ definedIds l.
Proof.
  intros. unfold definedIds. rewrite nodes_cons. simpl.
  now rewrite flat_map_app.
Qed.

Lemma definedIds_map :
  forall (f : Comment -> Comment) l,
    Forall (fun c => idList (f c) ++ definedIds (replies (f c)) =
                     idList c ++ definedIds (replies c)) l ->
    definedIds (map f l) = definedIds l.
Proof.
  intros f l H. induction H as [| c l Hc _ IH]; simpl; [reflexivity |].
  rewrite !definedIds_cons, !app_assoc, Hc, IH. reflexivity.
Qed.

(** A walk that keeps the id and the replies of what it hits keeps the
    ids of the forest. *)
Lemma walk_ids :
  forall t hit,
    (forall n, id (hit n) = id n) ->
    (forall n, replies (hit n) = replies n) ->
    forall l, definedIds (map (walk t hit) l) = definedIds l.
Proof.
  intros t hit Hi Hr l. apply definedIds_map.
  apply Forall_forall. intros c _.
  induction c as [c IH] using Comment_ind.
  rewrite walk_unfold.
  destruct (idIs (id c) t).
  - unfold idList. now rewrite Hi, Hr.
  - destruct (nonEmpty (replies c)); [| reflexivity].
    simpl. unfold idList at 1. simpl. fold (idList c). f_equal.
    now apply definedIds_map.
Qed.

(** What holds of every node after a walk, from what held before. *)
Lemma walk_Forall :
  forall (R Q : Comment -> Prop) t hit,
    (forall n, R n -> Q n) ->
    (forall n rs, Q n -> Q (withReplies n rs)) ->
    (forall n, R n -> idIs (id n) t = true -> Q (hit n)) ->
    (forall n, replies (hit n) = replies n) ->
    forall l, Forall R (nodes l) -> Forall Q (nodes (map (walk t hit) l)).
Proof.
  intros R Q t hit HRQ Hw Hhit Hr.
  assert (Each : forall c, Forall R (nodesOf c) -> Forall Q (nodesOf (walk t hit c))).
  { intros c. induction c as [c IH] using Comment_ind. intros H.
    apply Forall_nodesOf in H. destruct H as [Hc Hrs].
    rewrite walk_unfold.
    destruct (idIs (id c) t) eqn:Hid.
    - apply Forall_nodesOf. rewrite Hr. split; [now apply Hhit |].
      eapply Forall_impl; [exact HRQ | exact Hrs].
    - destruct (nonEmpty (replies c)).
      + apply Forall_nodesOf. simpl. split; [apply Hw; now apply HRQ |].
        apply Forall_nodes_roots. apply Forall_map.
        apply Forall_nodes_roots in Hrs.
        rewrite Forall_forall in *. intros r Hin.
        apply (IH r Hin). now apply Hrs.
      + apply Forall_nodesOf. split; [now apply HRQ |].
        eapply Forall_impl; [exact HRQ | exact Hrs]. }
  intros l H. apply Forall_nodes_roots. apply Forall_map.
  apply Forall_nodes_roots in H.
  eapply Forall_impl; [| exact H]. exact Each.
Qed.

(** When [findLikedStatus] answers "liked", some node of the forest has
    the target id and is liked. *)
Lemma findLikedStatus_true :
  forall l t,
    findLikedStatus l t = true ->
    exists n, In n (nodes l) /\ idIs (id n) t = true /\ is_liked n = true.
Proof.
  intros l t.
  assert (Each : forall c next,
            findLikedStatus_each t c next = true ->
            exists n, In n (nodesOf c) /\ idIs (id n) t = true /\ is_liked n = true).
  { intros c. induction c as [c IH] using Comment_ind. intros next H.
    rewrite nodesOf_unfold.
    destruct c as [i m u un p co lc ca ua rs io il av]; simpl in *.
    destruct (idIs i t) eqn:Hid.
    - eexists. split; [left; reflexivity |]. simpl. auto.
    - destruct rs as [| r rs']; simpl in H; [discriminate |].
      inversion IH as [| ? ? Hr _]; subst.
      destruct (Hr _ H) as (n & Hin & Hn).
      exists n. split; [| exact Hn].
      right. unfold nodes. cbn [replies flat_map]. apply in_or_app. now left. }
  destruct l as [| c rest]; simpl; [discriminate |].
  intros H. destruct (Each c _ H) as (n & Hin & Hn).
  exists n. split; [| exact Hn].
  unfold nodes. simpl. apply in_or_app. now left.
Qed.

(** Two nodes with the same id are the same node when ids are unique. *)
Lemma unique_by_id :
  forall (L : list Comment) t x y,
    NoDup (flat_map idList L) ->
    In x L -> In y L ->
    idIs (id x) t = true -> idIs (id y) t = true ->
    x = y.
Proof.
  assert (Hlist : forall c t, idIs (id c) t = true -> idList c = [t]).
  { intros c t H. unfold idList, idIs in *. destruct (id c); [| discriminate].
    apply Z.eqb_eq in H. now subst. }
  assert (Hin : forall (L : list Comment) t y,
            In y L -> idIs (id y) t = true -> In t (flat_map idList L)).
  { intros L t y Hy Ht. apply in_flat_map. exists y. split; [exact Hy |].
    rewrite (Hlist _ _ Ht). now left. }
  induction L as [| a L IH]; intros t x y Hnd Hx Hy Htx Hty; [contradiction |].
  simpl in Hnd.
  destruct Hx as [-> | Hx], Hy as [-> | Hy].
  - reflexivity.
  - rewrite (Hlist _ _ Htx) in Hnd. simpl in Hnd. inversion Hnd as [| ? ? Hno _]; subst.
    exfalso. apply Hno. eapply Hin; eassumption.
  - rewrite (Hlist _ _ Hty) in Hnd. simpl in Hnd. inversion Hnd as [| ? ? Hno _]; subst.
    exfalso. apply Hno. eapply Hin; eassumption.
  - apply (IH t x y); try assumption.
    now apply NoDup_app_remove_l in Hnd.
Qed.

Lemma likesCounted_withReplies :
  forall n rs, likesCounted n -> likesCounted (withReplies n rs).
Proof. intros n rs H. exact H. Qed.

(** When the state read is "liked" and ids are unique, every node with
    the target id counts at least one like. *)
Lemma liked_counts :
  forall l t,
    likeInvariant l ->
    findLikedStatus l t = true ->
    Forall (fun n => likesCounted n /\ (idIs (id n) t = true -> 1 <= likes_count n))
           (nodes l).
Proof.
  intros l t [Hnd Hall] Hf.
  destruct (findLikedStatus_true l t Hf) as (n0 & Hin0 & Hid0 & Hl0).
  rewrite Forall_forall in *. intros n Hn. split; [now apply Hall |].
  intros Hid.
  assert (E : n = n0) by (apply (unique_by_id (nodes l) t); assumption).
  subst n. now apply (Hall n0 Hin0).
Qed.

(** The optimistic update keeps the invariant. *)
Lemma optimistic_like_invariant :
  forall l t,
    likeInvariant l ->
    likeInvariant (updateCommentLikes l t (negb (findLikedStatus l t))).
Proof.
  intros l t Hinv. unfold updateCommentLikes.
  rewrite (map_ext _ _ (update_is_walk t (negb (findLikedStatus l t)))).
  split.
  - rewrite walk_ids; [exact (proj1 Hinv) | reflexivity | reflexivity].
  - destruct (findLikedStatus l t) eqn:E; simpl.
    + apply walk_Forall with
        (R := fun n => likesCounted n /\ (idIs (id n) t = true -> 1 <= likes_count n)).
      * intros n [H _]. exact H.
      * apply likesCounted_withReplies.
      * intros n [[H0 _] H1] Hid. specialize (H1 Hid).
        unfold likesCounted, bump; simpl. split; [lia | discriminate].
      * reflexivity.
      * now apply liked_counts.
    + apply walk_Forall with (R := likesCounted).
      * auto.
      * apply likesCounted_withReplies.
      * intros n [H0 _] _. unfold likesCounted, bump; simpl. split; intros; lia.
      * reflexivity.
      * exact (proj2 Hinv).
Qed.

(** So does the compensating update applied on top of it. *)
Lemma reverted_like_invariant :
  forall l t,
    likeInvariant l ->
    likeInvariant
      (updateCommentLikes
         (updateCommentLikes l t (negb (findLikedStatus l t))) t
         (findLikedStatus l t)).
Proof.
  intros l t Hinv. unfold updateCommentLikes. rewrite map_map.
  rewrite (map_ext _ _
             (update_twice_is_walk t (negb (findLikedStatus l t)) (findLikedStatus l t))).
  split.
  - rewrite walk_ids; [exact (proj1 Hinv) | reflexivity | reflexivity].
  - destruct (findLikedStatus l t) eqn:E; simpl.
    + apply walk_Forall with
        (R := fun n => likesCounted n /\ (idIs (id n) t = true -> 1 <= likes_count n)).
      * intros n [H _]. exact H.
      * apply likesCounted_withReplies.
      * intros n [[H0 _] H1] Hid. specialize (H1 Hid).
        unfold likesCounted, bump; simpl. split; intros; lia.
      * reflexivity.
      * now apply liked_counts.
    + apply walk_Forall with (R := likesCounted).
      * auto.
      * apply likesCounted_withReplies.
      * intros n [H0 _] _. unfold likesCounted, bump; simpl. split; [lia | discriminate].
      * reflexivity.
      * exact (proj2 Hinv).
Qed.

Lemma updateCommentWithServerData_each_unfold :
  forall u c,
    updateCommentWithServerData_each u c =
      if idEq (id c) (id u) then u
      else if nonEmpty (replies c)
           then withReplies c (updateCommentWithServerData (replies c) u)
           else c.
Proof. destruct c; reflexivity. Qed.

(** Splicing a record in keeps the counts in order when the record's
    are. *)
Lemma serverData_likesCounted :
  forall l u,
    Forall likesCounted (nodes l) ->
    Forall likesCounted (nodesOf u) ->
    Forall likesCounted (nodes (updateCommentWithServerData l u)).
Proof.
  intros l u Hl Hu. unfold updateCommentWithServerData.
  apply Forall_nodes_map; [| exact Hl]. clear l Hl.
  intros c. induction c as [c IH] using Comment_ind. intros Hc.
  rewrite updateCommentWithServerData_each_unfold.
  destruct (idEq (id c) (id u)); [exact Hu |].
  destruct (nonEmpty (replies c)); [| exact Hc].
  apply Forall_nodesOf in Hc. destruct Hc as [Hc Hrs].
  apply Forall_nodesOf. simpl. split; [now apply likesCounted_withReplies |].
  unfold updateCommentWithServerData.
  apply Forall_nodes_roots. apply Forall_map.
  apply Forall_nodes_roots in Hrs.
  rewrite Forall_forall in *. intros r Hin. apply (IH r Hin). now apply Hrs.
Qed.

(** The merged record has the server's count, liked state and replies. *)
Lemma mergeLiked_likesCounted :
  forall a original t,
    Forall likesCounted (nodesOf t) ->
    Forall likesCounted (nodesOf (mergeLiked a original t)).
Proof.
  intros a [o |] t H; [| exact H].
  apply Forall_nodesOf in H. apply Forall_nodesOf. exact H.
Qed.

(** Both states of one toggle. *)
Lemma toggleStates_invariant :
  forall op st,
    likeInvariant (comments st) ->
    serverRecordFits op st ->
    Forall (fun s => likeInvariant (comments s)) (toggleStates op st).
Proof.
  intros [env t response] st Hinv Hfit.
  unfold serverRecordFits, toggleStates, toggleCommentLike in *. simpl in *.
  destruct (isAuthenticated env); simpl in *;
    [| constructor; [exact Hinv | constructor]].
  specialize (Hfit eq_refl).
  pose proof (optimistic_like_invariant (comments st) t Hinv) as H1.
  pose proof (reverted_like_invariant (comments st) t Hinv) as H2.
  constructor; [exact H1 |]. constructor; [| constructor].
  destruct response as [m | [ | ] [m | v] now]; simpl in *; try exact H1.
  - unfold carriedComment in Hfit.
    destruct (prop (@o_data any) v) as [data | e]; simpl in *; [| exact H1].
    destruct (truthy data) eqn:Hd; simpl in *.
    + destruct (prop (@o_comment any) data) as [c | e]; simpl in *; [| exact H1].
      destruct (truthy c) eqn:Hc; simpl in *; [| exact H1].
      destruct Hfit as [Hrec Hids].
      split; [exact Hids |].
      apply serverData_likesCounted; [exact (proj2 H1) |].
      now apply mergeLiked_likesCounted.
    + rewrite Hd. exact H1.
  - exact H2.
  - destruct (scalar (@o_error any) v); exact H2.
Qed.

Lemma last_Forall :
  forall (A : Type) (P : A -> Prop) l d, Forall P l -> P d -> P (last l d).
Proof.
  intros A P l d H Hd. induction H as [| x l Hx Hl IH]; [exact Hd |].
  destruct l; [exact Hx | exact IH].
Qed.

Lemma toggleTrace_invariant :
  forall ops st,
    likeInvariant (comments st) ->
    recordsFit ops st ->
    Forall (fun s => likeInvariant (comments s)) (toggleTrace ops st).
Proof.
  induction ops as [| op rest IH]; intros st Hinv Hops; simpl; [constructor |].
  destruct Hops as [Hop Hrest].
  pose proof (toggleStates_invariant op st Hinv Hop) as Hstep.
  apply Forall_app. split; [exact Hstep |].
  apply IH; [| exact Hrest].
  now apply (last_Forall State (fun s => likeInvariant (comments s))).
Qed.

(** C5, as the code has it.  From a tree whose ids are unique, whose
    counts are not negative and whose liked comments count at least one
    like, every state of a run of toggles has only non-negative counts.
    The toggles of the run do not overlap: each one is the optimistic
    update followed by its response (a rejected request, a response that
    is not ok with its compensating update, or a success, with or without
    the comment) and the next one starts from the state it ends in.
    Where a success carries the comment, the server's record and its
    replies have counts that are not negative, at least 1 where liked,
    and the ids of the tree are still unique once the record is spliced
    in. *)
Theorem toggles_keep_counts_non_negative :
  forall (ops : list LikeOp) (st : State),
    likeInvariant (comments st) ->
    recordsFit ops st ->
    countsNonNegative st /\ Forall countsNonNegative (toggleTrace ops st).
Proof.
  intros ops st Hinv Hops.
  assert (W : forall s, likeInvariant (comments s) -> countsNonNegative s).
  { intros s [_ H]. unfold countsNonNegative.
    eapply Forall_impl; [| exact H]. intros c [Hc _]. exact Hc. }
  split; [now apply W |].
  eapply Forall_impl; [exact W |].
  now apply toggleTrace_invariant.
Qed.

(** Two toggles over the two roots, the second one answered with the
    comment as the server has it. *)
Lemma toggles_keep_counts_non_negative_witness :
  likeInvariant (comments (stateOf twoRoots)) /\
  recordsFit togglesWithRecord (stateOf twoRoots) /\
  Forall countsNonNegative (toggleTrace togglesWithRecord (stateOf twoRoots)).
Proof.
  assert (H1 : likeInvariant (comments (stateOf twoRoots))).
  { split.
    - simpl. repeat (constructor; [simpl; intuition discriminate |]). constructor.
    - simpl. repeat constructor; simpl; intros; try lia; discriminate. }
  assert (H2 : recordsFit togglesWithRecord (stateOf twoRoots)).
  { split; [intros _; exact I |]. split; [| exact I].
    intros _. split.
    - repeat constructor; simpl; intros; lia.
    - simpl. repeat (constructor; [simpl; intuition discriminate |]). constructor. }
  split; [exact H1 | split; [exact H2 |]].
  exact (proj2 (toggles_keep_counts_non_negative togglesWithRecord
                  (stateOf twoRoots) H1 H2)).
Defined.

(** A response that carries no comment asks nothing of the server. *)
Lemma carriesComment_carried :
  forall response,
    carriesComment response = false ->
    match response with
    | Replied true (Parsed v) _ => carriedComment v = None
    | _ => True
    end.
Proof.
  intros [m | [ | ] [m | v] now] H; try exact I.
  unfold carriedComment. simpl in H.
  destruct (prop (@o_data any) v) as [data | e]; [| reflexivity].
  destruct (truthy data); [| reflexivity].
  destruct (prop (@o_comment any) data) as [c | e]; [| reflexivity].
  now rewrite H.
Qed.

(** The runs in which no success carries the comment are a special
    case. *)
Lemma toggles_without_comment_keep_counts :
  forall (ops : list LikeOp) (st : State),
    likeInvariant (comments st) ->
    Forall (fun op => carriesComment (op_response op) = false) ops ->
    countsNonNegative st /\ Forall countsNonNegative (toggleTrace ops st).
Proof.
  intros ops st Hinv Hops. apply toggles_keep_counts_non_negative; [exact Hinv |].
  clear Hinv. revert st. induction Hops as [| op rest Hop _ IH]; intros st; [exact I |].
  split; [| apply IH].
  intros _. apply carriesComment_carried in Hop.
  destruct (op_response op) as [m | [ | ] [m | v] now]; try exact I.
  now rewrite Hop.
Qed.

(** C5, as stated, fails from a tree that has a liked comment with a
    count of zero, which is what the normalizer makes of a payload that
    is liked and has no count: the optimistic update of its toggle takes
    the count to -1. *)
Lemma toggle_liked_uncounted_counterexample :
  map (fun c => transformComment "2024-05-01T09:59:00.000Z" c (MNum 7)) [likedPayload]
    = likedUncounted /\
  countsNonNegative (stateOf likedUncounted) /\
  ~ Forall countsNonNegative
      (toggleTrace
         [mkLikeOp signedIn 1
            (Replied true (Parsed (Obj emptyObject)) "2024-05-01T10:00:02.000Z")]
         (stateOf likedUncounted)).
Proof.
  split; [reflexivity |]. split.
  - unfold countsNonNegative. simpl. repeat constructor. simpl. lia.
  - intros H. simpl in H.
    inversion H as [| s l Hs _]; subst.
    unfold countsNonNegative in Hs. simpl in Hs.
    inversion Hs as [| c l' Hc _]; subst. simpl in Hc. lia.
Qed.

(** Unique ids matter as well: the state is read on the first comment
    with the id and the update is applied to every root that has it. *)
Lemma toggle_same_id_goes_negative :
  Forall likesCounted (nodes sameIdTwice) /\
  map likes_count
      (comments (pending (toggleCommentLike signedIn 1 (stateOf sameIdTwice))))
    = [0; -1].
Proof.
  split; [| reflexivity].
  simpl. repeat constructor; simpl; intros; try lia; discriminate.
Qed.

(** The server's record matters as well: spliced in as liked with no
    count, it is taken to -1 by the next toggle. *)
Lemma toggle_after_uncounted_record_goes_negative :
  likeInvariant (comments (stateOf oneRoot)) /\
  map (fun s => map likes_count (comments s))
      (toggleTrace togglesWithUncountedRecord (stateOf oneRoot))
    = [[1]; [0]; [-1]; [-1]].
Proof.
  split; [| reflexivity].
  split.
  - simpl. repeat (constructor; [simpl; intuition discriminate |]). constructor.
  - simpl. repeat constructor; simpl; intros; try lia; discriminate.
Qed.

(** So does the order of the toggles: when a second toggle of a comment
    starts before the first one is answered, and the first one is then
    answered with a status that is not ok, its compensating update takes
    the count from 0 to -1. *)
Lemma toggle_overlapping_goes_negative :
  map likes_count
      (comments
         (fst (resume (toggleCommentLike signedIn 1 (stateOf oneRoot))
                      (pending (toggleCommentLike signedIn 1
                                  (pending (toggleCommentLike signedIn 1
                                              (stateOf oneRoot)))))
                      (Replied false (Parsed (Obj emptyObject))
                               "2024-05-01T10:00:02.000Z"))))
    = [-1].
Proof. reflexivity. Qed.

(** * Further properties of the component *)

(** ** The normalizer *)

Lemma strOr_not_empty :
  forall x d, d <> ""%string -> strOr x d <> ""%string.
Proof.
  intros x d Hd. unfold strOr. destruct x as [s |]; [| exact Hd].
  destruct (String.eqb_spec s ""); [exact Hd | assumption].
Qed.

Lemma transformComment_object :
  forall now o d,
    transformComment now (Obj o) d =
      fromProps o
        (map (fun reply => transformComment now reply (defaultArg (o_material_id o)))
             (elements (o_replies o))).
Proof.
  intros. simpl. destruct (o_replies o); reflexivity.
Qed.

Lemma transformComment_not_object :
  forall now v d,
    isObject v = false ->
    transformComment now v d = placeholder now d \/
    transformComment now v d = fromProps emptyObject [].
Proof.
  intros now v d H. destruct v; simpl; auto.
  - destruct b; auto.
  - destruct (n =? 0); auto.
  - destruct (s =? "")%string; auto.
  - discriminate.
Qed.

(** X1. Whatever the payload, every record of the normalized comment,
    the nested replies included, has a user name that is not empty and is
    not flagged as optimistic. *)
Theorem transformComment_names_and_flags :
  forall (now : string) (v : any) (d : MaterialId),
    Forall (fun c => username c <> ""%string /\ is_optimistic c <> Some true)
           (nodesOf (transformComment now v d)).
Proof.
  intros now v. induction v as [v Hv | o IH] using payload_ind; intros d.
  - destruct (transformComment_not_object now v d Hv) as [-> | ->];
      rewrite nodesOf_unfold; simpl; repeat constructor; simpl; discriminate.
  - rewrite transformComment_object. apply Forall_nodesOf. split.
    + simpl. split; [| discriminate].
      apply strOr_not_empty. discriminate.
    + simpl. apply Forall_nodes_roots. apply Forall_map.
      eapply Forall_impl; [| exact IH]. intros r Hr. apply Hr.
Qed.

(** X2. For every payload the list normalizer returns a page count and a
    current page that are not 0. *)
Theorem transformCommentsResponse_pages_not_zero :
  forall (now : string) (v : any) (d : MaterialId),
    exists r,
      transformCommentsResponse now v d = Ok r /\
      pages r <> 0 /\ current_page r <> 0.
Proof.
  assert (N : forall x, numOr x 1 <> 0).
  { intros [n |]; simpl; [| discriminate].
    destruct (Z.eqb_spec n 0); [discriminate | assumption]. }
  intros now v d.
  unfold transformCommentsResponse, whenArray, whenTruthy.
  destruct v as [ | | b | n | s | l | o]; simpl;
    try (eexists; split; [reflexivity | simpl; split; discriminate]).
  - destruct b; simpl; eexists; (split; [reflexivity | simpl; split; discriminate]).
  - destruct (n =? 0); simpl; eexists; (split; [reflexivity | simpl; split; discriminate]).
  - destruct (s =? "")%string; simpl; eexists;
      (split; [reflexivity | simpl; split; discriminate]).
  - destruct o as [? ? ? ? ? ? ? ? ? ? ? ? its cs ? ? ? data ? ?]; simpl.
    destruct its; simpl;
      try (eexists; split; [reflexivity | simpl; split; apply N]);
      destruct cs; simpl;
      try (eexists; split; [reflexivity | simpl; split; apply N]);
      destruct data as [ | | db | dn | ds | dl | o']; simpl;
      try (eexists; split; [reflexivity | simpl; split; discriminate]);
      try (destruct db; simpl; eexists; (split; [reflexivity | simpl; split; discriminate]));
      try (destruct (dn =? 0); simpl; eexists;
           (split; [reflexivity | simpl; split; discriminate]));
      try (destruct (ds =? "")%string; simpl; eexists;
           (split; [reflexivity | simpl; split; discriminate]));
      destruct o' as [? ? ? ? ? ? ? ? ? ? ? ? its' cs' ? ? ? ? ? ?]; simpl;
      destruct its'; simpl;
      try (eexists; split; [reflexivity | simpl; split; apply N]);
      destruct cs'; simpl;
      eexists; (split; [reflexivity | simpl; split; first [apply N | discriminate]]).
Qed.

(** ** Loading the comments *)

(** X3. When the request for the comments is rejected, is answered with
    a status that is not ok, or has a body that cannot be parsed, the
    comments, the total, the pages and the current page are what they
    were; the loading flag is off and an error is set. *)
Theorem fetchComments_failure_keeps_list :
  forall (env : Env) (page : Z) (st : State) (response : Response),
    readable response = false ->
    comments (fetched env page st response) = comments st /\
    totalComments (fetched env page st response) = totalComments st /\
    totalPages (fetched env page st response) = totalPages st /\
    currentPage (fetched env page st response) = currentPage st /\
    isLoading (fetched env page st response) = false /\
    error (fetched env page st response) <> None.
Proof.
  intros env page st response H. unfold fetched, fetchComments.
  destruct response as [m | [ | ] [m | v] now]; simpl in *;
    try discriminate; try (repeat split; discriminate).
  destruct (scalar (@o_error any) v); simpl; repeat split; discriminate.
Qed.

(** The fetch of page 2 is rejected while the two roots are shown. *)
Lemma fetchComments_failure_keeps_list_witness :
  readable (Rejected "Failed to fetch") = false /\
  comments (fetched signedIn 2 (stateOf twoRoots) (Rejected "Failed to fetch"))
    = twoRoots.
Proof.
  split; [reflexivity |].
  apply (fetchComments_failure_keeps_list signedIn 2 (stateOf twoRoots)
           (Rejected "Failed to fetch") eq_refl).
Defined.

(** X4. A success with a body that parses never ends in an error,
    whatever the shape of the body: the state is replaced by what the list
    normalizer returns, the loading flag is off, and the number of pages
    is not 0. *)
Theorem fetchComments_success_replaces_list :
  forall (env : Env) (page : Z) (st : State) (v : any) (now : string),
    exists r,
      transformCommentsResponse now v (materialId env) = Ok r /\
      fetched env page st (Replied true (Parsed v) now) =
        {| comments := items r; totalComments := total r;
           totalPages := pages r; currentPage := current_page r;
           isLoading := false; error := None |} /\
      totalPages (fetched env page st (Replied true (Parsed v) now)) <> 0.
Proof.
  intros env page st v now.
  destruct (transformCommentsResponse_pages_not_zero now v (materialId env))
    as (r & E & Hp & _).
  exists r. split; [exact E |].
  unfold fetched, fetchComments. simpl. rewrite E. simpl.
  split; [reflexivity | exact Hp].
Qed.

(** ** Looking a comment up *)

Lemma find_app :
  forall (A : Type) (p : A -> bool) l1 l2,
    find p (l1 ++ l2) =
      match find p l1 with Some x => Some x | None => find p l2 end.
Proof.
  intros A p l1 l2. induction l1 as [| a l1 IH]; simpl; [reflexivity |].
  destruct (p a); [reflexivity | exact IH].
Qed.

Lemma findComment_each_unfold :
  forall t c next,
    findComment_each t c next =
      if idIs (id c) t then Some c
      else if nonEmpty (replies c) then
        match findComment (replies c) t with
        | Some found => Some found
        | None => next
        end
      else next.
Proof. destruct c; reflexivity. Qed.

(** X5. [findComment] is the depth-first search it is meant to be: it
    returns the first comment with the id in the order "a comment, then
    its replies, then the comments after it", and nothing exactly when no
    comment has the id. *)
Theorem findComment_is_first_in_preorder :
  forall (l : list Comment) (t : Z),
    findComment l t = find (fun n => idIs (id n) t) (nodes l).
Proof.
  intros l t.
  assert (List : forall l,
            Forall (fun c => forall next,
                      findComment_each t c next =
                        match find (fun n => idIs (id n) t) (nodesOf c) with
                        | Some x => Some x
                        | None => next
                        end) l ->
            forall next,
              fold_right (findComment_each t) next l =
                match find (fun n => idIs (id n) t) (nodes l) with
                | Some x => Some x
                | None => next
                end).
  { intros l0 H. induction H as [| c l0 Hc _ IH]; intros next; simpl; [reflexivity |].
    unfold nodes. simpl. fold (nodes l0). rewrite find_app, Hc, IH.
    destruct (find (fun n => idIs (id n) t) (nodesOf c)); reflexivity. }
  unfold findComment at 1.
  rewrite (List l); [destruct (find (fun n => idIs (id n) t) (nodes l)); reflexivity |].
  apply Forall_forall. intros c _.
  induction c as [c IH] using Comment_ind. intros next.
  rewrite findComment_each_unfold, nodesOf_unfold. simpl.
  destruct (idIs (id c) t); [reflexivity |].
  unfold findComment. rewrite (List _ IH None).
  destruct (nonEmpty (replies c)) eqn:E.
  - destruct (find (fun n => idIs (id n) t) (nodes (replies c))); reflexivity.
  - destruct (replies c); [reflexivity | discriminate].
Qed.

(** ** Updates of the tree by id *)

Lemma withReplies_same : forall c, withReplies c (replies c) = c.
Proof. destruct c; reflexivity. Qed.

(** A walk whose hit changes none of the comments it can reach changes
    nothing. *)
Lemma walk_fixed :
  forall t hit l,
    Forall (fun n => idIs (id n) t = true -> hit n = n) (nodes l) ->
    map (walk t hit) l = l.
Proof.
  intros t hit l H. apply Forall_nodes_roots in H.
  transitivity (map (fun x => x) l); [| apply map_id]. apply map_ext_Forall.
  eapply Forall_impl; [| exact H]. clear. intros c.
  induction c as [c IH] using Comment_ind. intros H.
  apply Forall_nodesOf in H. destruct H as [Hc Hrs].
  rewrite walk_unfold.
  destruct (idIs (id c) t); [now apply Hc |].
  destruct (nonEmpty (replies c)); [| reflexivity].
  transitivity (withReplies c (replies c)); [| apply withReplies_same]. f_equal.
  transitivity (map (fun x => x) (replies c)); [| apply map_id]. apply map_ext_Forall.
  apply Forall_nodes_roots in Hrs.
  rewrite Forall_forall in *. intros r Hin. apply (IH r Hin). now apply Hrs.
Qed.

Lemma map_nodes_map :
  forall (A : Type) (f : Comment -> A) (g : Comment -> Comment) l,
    Forall (fun c => map f (nodesOf (g c)) = map f (nodesOf c)) l ->
    map f (nodes (map g l)) = map f (nodes l).
Proof.
  intros A f g l H. induction H as [| c l Hc _ IH]; [reflexivity |].
  unfold nodes in *. simpl. rewrite !map_app, Hc, IH. reflexivity.
Qed.

(** A walk keeps, node by node, whatever its hit and the rebuilding of
    the replies keep. *)
Lemma walk_keeps :
  forall (A : Type) (f : Comment -> A) t hit,
    (forall c rs, f (withReplies c rs) = f c) ->
    (forall n, f (hit n) = f n) ->
    (forall n, replies (hit n) = replies n) ->
    forall l, map f (nodes (map (walk t hit) l)) = map f (nodes l).
Proof.
  intros A f t hit Hw Hf Hr l. apply map_nodes_map.
  apply Forall_forall. intros c _.
  induction c as [c IH] using Comment_ind.
  rewrite walk_unfold.
  destruct (idIs (id c) t).
  - rewrite !nodesOf_unfold. simpl. now rewrite Hf, Hr.
  - destruct (nonEmpty (replies c)); [| reflexivity].
    rewrite !nodesOf_unfold. simpl. rewrite Hw. f_equal.
    now apply map_nodes_map.
Qed.

(** X6. A like update for an id that no comment has returns the tree it
    was given. *)
Theorem updateCommentLikes_absent_id :
  forall (l : list Comment) (t : Z) (b : bool),
    Forall (fun n => idIs (id n) t = false) (nodes l) ->
    updateCommentLikes l t b = l.
Proof.
  intros l t b H. unfold updateCommentLikes.
  rewrite (map_ext _ _ (update_is_walk t b)).
  apply walk_fixed. eapply Forall_impl; [| exact H].
  intros n Hn Hid. congruence.
Qed.

Lemma updateCommentLikes_absent_id_witness :
  Forall (fun n => idIs (id n) 9 = false) (nodes thread) /\
  updateCommentLikes thread 9 true = thread.
Proof.
  assert (H : Forall (fun n => idIs (id n) 9 = false) (nodes thread)).
  { repeat constructor. }
  split; [exact H |].
  apply (updateCommentLikes_absent_id thread 9 true H).
Defined.

(** X7. Splicing in a record whose id no comment has returns the tree it
    was given. *)
Theorem updateCommentWithServerData_absent_id :
  forall (l : list Comment) (u : Comment),
    Forall (fun n => idEq (id n) (id u) = false) (nodes l) ->
    updateCommentWithServerData l u = l.
Proof.
  intros l u H. apply Forall_nodes_roots in H.
  unfold updateCommentWithServerData.
  transitivity (map (fun x => x) l); [| apply map_id]. apply map_ext_Forall.
  eapply Forall_impl; [| exact H]. clear. intros c.
  induction c as [c IH] using Comment_ind. intros H.
  apply Forall_nodesOf in H. destruct H as [Hc Hrs].
  rewrite updateCommentWithServerData_each_unfold, Hc.
  destruct (nonEmpty (replies c)); [| reflexivity].
  transitivity (withReplies c (replies c)); [| apply withReplies_same]. f_equal.
  unfold updateCommentWithServerData.
  transitivity (map (fun x => x) (replies c)); [| apply map_id]. apply map_ext_Forall.
  apply Forall_nodes_roots in Hrs.
  rewrite Forall_forall in *. intros r Hin. apply (IH r Hin). now apply Hrs.
Qed.

Lemma updateCommentWithServerData_absent_id_witness :
  Forall (fun n => idEq (id n) (id helloMerged) = false) (nodes thread) /\
  updateCommentWithServerData thread helloMerged = thread.
Proof.
  assert (H : Forall (fun n => idEq (id n) (id helloMerged) = false) (nodes thread)).
  { repeat constructor. }
  split; [exact H |].
  apply (updateCommentWithServerData_absent_id thread helloMerged H).
Defined.

(** X8. A like update changes no id and neither the number nor the
    order of the comments. *)
Theorem updateCommentLikes_keeps_ids :
  forall (l : list Comment) (t : Z) (b : bool),
    map id (nodes (updateCommentLikes l t b)) = map id (nodes l).
Proof.
  intros l t b. unfold updateCommentLikes.
  rewrite (map_ext _ _ (update_is_walk t b)).
  apply walk_keeps; reflexivity.
Qed.

(** Looking the target up after a walk gives the hit of what was found
    before, as long as the hit keeps the target's id. *)
Lemma find_after_walk :
  forall t hit,
    (forall n, idIs (id n) t = true -> idIs (id (hit n)) t = true) ->
    forall l,
      find (fun n => idIs (id n) t) (nodes (map (walk t hit) l)) =
        option_map hit (find (fun n => idIs (id n) t) (nodes l)).
Proof.
  intros t hit Hhit.
  assert (List : forall l,
            Forall (fun c =>
                      find (fun n => idIs (id n) t) (nodesOf (walk t hit c)) =
                        option_map hit (find (fun n => idIs (id n) t) (nodesOf c))) l ->
            find (fun n => idIs (id n) t) (nodes (map (walk t hit) l)) =
              option_map hit (find (fun n => idIs (id n) t) (nodes l))).
  { intros l H. induction H as [| c l Hc _ IH]; [reflexivity |].
    unfold nodes in *. simpl. rewrite !find_app, Hc, IH.
    destruct (find (fun n => idIs (id n) t) (nodesOf c)); reflexivity. }
  intros l. apply List. apply Forall_forall. intros c _.
  induction c as [c IH] using Comment_ind.
  rewrite walk_unfold.
  destruct (idIs (id c) t) eqn:Hid.
  - rewrite (nodesOf_unfold (hit c)), (nodesOf_unfold c). simpl.
    now rewrite (Hhit c Hid), Hid.
  - destruct (nonEmpty (replies c)) eqn:Hne.
    + rewrite (nodesOf_unfold (withReplies _ _)), (nodesOf_unfold c). simpl.
      rewrite Hid. now apply List.
    + rewrite nodesOf_unfold. simpl. rewrite Hid.
      destruct (replies c); [reflexivity | discriminate].
Qed.

(** X9. After a like update, looking the target up gives the comment
    found before with its count moved by one and its liked state set. *)
Theorem findComment_after_like :
  forall (l : list Comment) (t : Z) (b : bool),
    findComment (updateCommentLikes l t b) t =
      option_map (fun c => withLikes c (likes_count c + (if b then 1 else -1)) b)
                 (findComment l t).
Proof.
  intros l t b. rewrite !findComment_is_first_in_preorder.
  unfold updateCommentLikes. rewrite (map_ext _ _ (update_is_walk t b)).
  apply find_after_walk. intros n H. exact H.
Qed.

Lemma server_data_is_walk :
  forall t u,
    id u = Some t ->
    forall c, updateCommentWithServerData_each u c = walk t (fun _ => u) c.
Proof.
  intros t u Hu c. induction c as [c IH] using Comment_ind.
  rewrite updateCommentWithServerData_each_unfold, walk_unfold, Hu.
  assert (E : idEq (id c) (Some t) = idIs (id c) t) by (destruct (id c); reflexivity).
  rewrite E. destruct (idIs (id c) t); [reflexivity |].
  destruct (nonEmpty (replies c)); [| reflexivity].
  f_equal. unfold updateCommentWithServerData. now apply map_ext_Forall.
Qed.

(** X10. After a record with id [t] has been spliced in, looking [t] up
    gives that record whenever the tree had a comment with the id, and
    nothing otherwise. *)
Theorem findComment_after_server_data :
  forall (l : list Comment) (u : Comment) (t : Z),
    id u = Some t ->
    findComment (updateCommentWithServerData l u) t =
      option_map (fun _ => u) (findComment l t).
Proof.
  intros l u t Hu. rewrite !findComment_is_first_in_preorder.
  unfold updateCommentWithServerData.
  rewrite (map_ext _ _ (server_data_is_walk t u Hu)).
  apply find_after_walk. intros n _. rewrite Hu. simpl. apply Z.eqb_refl.
Qed.

Lemma findComment_after_server_data_witness :
  id (simpleComment 2 5 true []) = Some 2 /\
  findComment (updateCommentWithServerData thread (simpleComment 2 5 true [])) 2 =
    Some (simpleComment 2 5 true []).
Proof.
  split; [reflexivity |].
  apply (findComment_after_server_data thread (simpleComment 2 5 true []) 2 eq_refl).
Defined.

(** X11. A like update followed by the opposite one gives the tree back
    when every comment with the id was in the state the second update
    restores. *)
Theorem updateCommentLikes_round_trip :
  forall (l : list Comment) (t : Z) (b : bool),
    Forall (fun n => idIs (id n) t = true -> is_liked n = negb b) (nodes l) ->
    updateCommentLikes (updateCommentLikes l t b) t (negb b) = l.
Proof.
  intros l t b H. unfold updateCommentLikes. rewrite map_map.
  rewrite (map_ext _ _ (update_twice_is_walk t b (negb b))).
  apply walk_fixed. eapply Forall_impl; [| exact H].
  intros n Hn Hid. specialize (Hn Hid).
  destruct n; simpl in *. unfold bump, withLikes; simpl. subst.
  f_equal. destruct b; simpl; lia.
Qed.

Lemma updateCommentLikes_round_trip_witness :
  Forall (fun n => idIs (id n) 2 = true -> is_liked n = negb true) (nodes thread) /\
  updateCommentLikes (updateCommentLikes thread 2 true) 2 (negb true) = thread.
Proof.
  assert (H : Forall (fun n => idIs (id n) 2 = true -> is_liked n = negb true)
                     (nodes thread)).
  { repeat constructor. }
  split; [exact H |].
  apply (updateCommentLikes_round_trip thread 2 true H).
Defined.

(** X12. Whatever state was read, a toggle answered with a status that
    is not ok leaves every comment with the like count it had before the
    toggle. *)
Theorem toggleCommentLike_failure_restores_counts :
  forall (env : Env) (t : Z) (st : State) (body : Body) (now : string),
    map likes_count
        (nodes (comments (fst (settle (toggleCommentLike env t st)
                                      (Replied false body now))))) =
      map likes_count (nodes (comments st)).
Proof.
  intros env t st body now. unfold toggleCommentLike.
  destruct (isAuthenticated env); simpl; [| reflexivity].
  set (a := findLikedStatus (comments st) t).
  destruct body as [m | v]; simpl;
    try (destruct (scalar (@o_error any) v); simpl);
    unfold updateCommentLikes; rewrite map_map;
    rewrite (map_ext _ _ (update_twice_is_walk t (negb a) a));
    (apply walk_keeps; [reflexivity | | reflexivity]);
    intros n; unfold bump; simpl; destruct a; simpl; lia.
Qed.

(** X13. When the state read before the toggle is the state of every
    comment with the id, a toggle answered with a status that is not ok
    leaves the tree exactly as it was. *)
Theorem toggleCommentLike_failure_restores_tree :
  forall (env : Env) (t : Z) (st : State) (body : Body) (now : string),
    Forall (fun n => idIs (id n) t = true ->
                     is_liked n = findLikedStatus (comments st) t)
           (nodes (comments st)) ->
    comments (fst (settle (toggleCommentLike env t st) (Replied false body now)))
      = comments st.
Proof.
  intros env t st body now H. unfold toggleCommentLike.
  destruct (isAuthenticated env); simpl; [| reflexivity].
  set (a := findLikedStatus (comments st) t) in *.
  assert (R : updateCommentLikes (updateCommentLikes (comments st) t (negb a)) t a
              = comments st).
  { rewrite <- (negb_involutive a) at 2.
    apply updateCommentLikes_round_trip. now rewrite negb_involutive. }
  destruct body as [m | v]; simpl;
    try (destruct (scalar (@o_error any) v); simpl); exact R.
Qed.

Lemma toggleCommentLike_failure_restores_tree_witness :
  Forall (fun n => idIs (id n) 1 = true ->
                   is_liked n = findLikedStatus (comments (stateOf twoRoots)) 1)
         (nodes (comments (stateOf twoRoots))) /\
  comments (fst (settle (toggleCommentLike signedIn 1 (stateOf twoRoots))
                        (Replied false (Parsed (Obj emptyObject))
                                 "2024-05-01T10:00:02.000Z")))
    = comments (stateOf twoRoots).
Proof.
  assert (H : Forall (fun n => idIs (id n) 1 = true ->
                        is_liked n = findLikedStatus (comments (stateOf twoRoots)) 1)
                     (nodes (comments (stateOf twoRoots)))).
  { repeat constructor. simpl. discriminate. }
  split; [exact H |].
  apply (toggleCommentLike_failure_restores_tree signedIn 1 (stateOf twoRoots)
           (Parsed (Obj emptyObject)) "2024-05-01T10:00:02.000Z" H).
Defined.

Lemma findComment_found :
  forall l t c, findComment l t = Some c -> idIs (id c) t = true.
Proof.
  intros l t c H. rewrite findComment_is_first_in_preorder in H.
  apply find_some in H. apply H.
Qed.

(** X14. When a toggle of a comment that is in the tree succeeds and the
    response carries the comment under the same id, the comment then found
    under the id has the like count and the liked state of the server's
    record, whatever the optimistic update had made of them. *)
Theorem toggleCommentLike_success_takes_server_counts :
  forall (env : Env) (t : Z) (st : State) (v c : any) (now : string)
         (original : Comment),
    isAuthenticated env = true ->
    findComment (comments st) t = Some original ->
    carriedComment v = Some c ->
    id (transformComment now c (materialId env)) = Some t ->
    exists merged,
      findComment
        (comments (fst (settle (toggleCommentLike env t st)
                               (Replied true (Parsed v) now)))) t = Some merged /\
      id merged = Some t /\
      likes_count merged = likes_count (transformComment now c (materialId env)) /\
      is_liked merged = is_liked (transformComment now c (materialId env)).
Proof.
  intros env t st v c now original Hauth Hfind Hc Hid.
  pose proof (findComment_found _ _ _ Hfind) as Ho.
  unfold toggleCommentLike. rewrite Hauth. simpl.
  unfold carriedComment in Hc.
  destruct (prop (@o_data any) v) as [data | e]; [| discriminate].
  destruct (truthy data) eqn:Hd; [| discriminate].
  destruct (prop (@o_comment any) data) as [c' | e]; [| discriminate].
  destruct (truthy c') eqn:Hc'; [| discriminate].
  injection Hc as ->. simpl. rewrite Hfind.
  set (T := transformComment now c (materialId env)) in *.
  set (a := findLikedStatus (comments st) t).
  set (u := mergeLiked a (Some original) T).
  assert (Hu : id u = Some t).
  { unfold u; simpl. unfold orElse. rewrite Hid. simpl.
    destruct (Z.eqb_spec t 0) as [-> | _]; simpl; [| reflexivity].
    unfold idIs in Ho. destruct (id original); [| discriminate].
    apply Z.eqb_eq in Ho. now subst. }
  exists u. split; [| split; [exact Hu | split; reflexivity]].
  rewrite (findComment_after_server_data _ u t Hu).
  rewrite findComment_after_like, Hfind. reflexivity.
Qed.

Lemma toggleCommentLike_success_takes_server_counts_witness :
  isAuthenticated signedIn = true /\
  findComment (comments (stateOf twoRoots)) 1 = Some (simpleComment 1 0 false []) /\
  carriedComment (underDataComment likedBySeven) = Some likedBySeven /\
  exists merged,
    findComment
      (comments (fst (settle (toggleCommentLike signedIn 1 (stateOf twoRoots))
                             (Replied true (Parsed (underDataComment likedBySeven))
                                      "2024-05-01T10:00:02.000Z")))) 1 = Some merged /\
    likes_count merged = 7.
Proof.
  split; [reflexivity |]. split; [reflexivity |]. split; [reflexivity |].
  destruct (toggleCommentLike_success_takes_server_counts signedIn 1
              (stateOf twoRoots) (underDataComment likedBySeven) likedBySeven
              "2024-05-01T10:00:02.000Z" (simpleComment 1 0 false [])
              eq_refl eq_refl eq_refl eq_refl) as (merged & F & _ & L & _).
  exists merged. split; [exact F | exact L].
Defined.

(** ** Adding a comment, from the insertion to the response *)

Lemma roots_are_nodes :
  forall (P : Comment -> Prop) l, Forall P (nodes l) -> Forall P l.
Proof.
  intros P l H. apply Forall_nodes_roots in H.
  eapply Forall_impl; [| exact H]. intros c Hc.
  apply Forall_nodesOf in Hc. apply Hc.
Qed.

Lemma filter_all :
  forall (A : Type) (f : A -> bool) l,
    Forall (fun x => f x = true) l -> filter f l = l.
Proof.
  intros A f l H. induction H as [| x l Hx _ IH]; simpl; [reflexivity |].
  now rewrite Hx, IH.
Qed.

Lemma map_fixed :
  forall (A : Type) (f : A -> A) l,
    Forall (fun x => f x = x) l -> map f l = l.
Proof.
  intros A f l H. induction H as [| x l Hx _ IH]; simpl; [reflexivity |].
  now rewrite Hx, IH.
Qed.

(** Removing the optimistic comment undoes its insertion when no other
    comment has its id. *)
Lemma revert_after_insert :
  forall parentId o l,
    idEq (id o) (id o) = true ->
    Forall (fun n => idEq (id n) (id o) = false) (nodes l) ->
    forall s1 s2,
      comments s1 = l ->
      comments s2 = comments (insertOptimistic parentId o s1) ->
      comments (revertOptimistic parentId o s2) = l.
Proof.
  intros parentId o l Ho Hfresh s1 s2 H1 H2.
  unfold revertOptimistic, insertOptimistic in *.
  destruct (noParent parentId); simpl in *; rewrite H2, H1.
  - simpl. rewrite Ho. simpl. apply filter_all.
    apply roots_are_nodes in Hfresh.
    eapply Forall_impl; [| exact Hfresh]. intros c Hc. simpl in Hc. now rewrite Hc.
  - rewrite map_map. apply map_fixed.
    apply Forall_nodes_roots in Hfresh.
    eapply Forall_impl; [| exact Hfresh]. intros c Hc. simpl.
    destruct (idIsParent (id c) parentId) eqn:E; simpl; rewrite E; [| reflexivity].
    transitivity (withReplies c (replies c)); [| apply withReplies_same].
    unfold withReplies; simpl. f_equal.
    rewrite filter_app. simpl. rewrite Ho. simpl. rewrite app_nil_r.
    apply filter_all.
    apply Forall_nodesOf in Hc. destruct Hc as [_ Hc].
    apply roots_are_nodes in Hc.
    eapply Forall_impl; [| exact Hc]. intros r Hr. simpl in Hr. now rewrite Hr.
Qed.

(** Replacing the optimistic comment by [n] gives what inserting [n] in
    its place would have given, when no other comment has its id. *)
Lemma replace_after_insert :
  forall parentId o n l,
    idEq (id o) (id o) = true ->
    Forall (fun c => idEq (id c) (id o) = false) (nodes l) ->
    forall s1 s2,
      comments s1 = l ->
      comments s2 = comments (insertOptimistic parentId o s1) ->
      comments (replaceOptimistic parentId o n s2) =
        comments (insertOptimistic parentId n s1).
Proof.
  intros parentId o n l Ho Hfresh s1 s2 H1 H2.
  unfold replaceOptimistic, insertOptimistic in *.
  destruct (noParent parentId); simpl in *; rewrite H2, H1.
  - simpl. rewrite Ho. f_equal. apply map_fixed.
    apply roots_are_nodes in Hfresh.
    eapply Forall_impl; [| exact Hfresh]. intros c Hc. simpl in Hc. now rewrite Hc.
  - rewrite map_map. apply map_ext_Forall.
    apply Forall_nodes_roots in Hfresh.
    eapply Forall_impl; [| exact Hfresh]. intros c Hc. simpl.
    destruct (idIsParent (id c) parentId) eqn:E; simpl; rewrite E; [| reflexivity].
    unfold withReplies; simpl. f_equal.
    rewrite map_app. simpl. rewrite Ho. f_equal.
    apply map_fixed.
    apply Forall_nodesOf in Hc. destruct Hc as [_ Hc].
    apply roots_are_nodes in Hc.
    eapply Forall_impl; [| exact Hc]. intros r Hr. simpl in Hr. now rewrite Hr.
Qed.

(** X15. An authenticated submission, root or reply, that is answered
    with a status that is not ok leaves no trace in the tree or in the
    total, provided no comment had the optimistic id: the tree and the
    total are what they were, nothing is returned, and the error is
    "Failed to add comment". *)
Theorem addComment_failure_restores_tree :
  forall (env : Env) (content : string) (parentId : option Z) (st : State)
         (body : Body) (now : string),
    isAuthenticated env = true ->
    freshIn env (comments st) ->
    comments (fst (settle (addComment env content parentId st)
                          (Replied false body now))) = comments st /\
    totalComments (fst (settle (addComment env content parentId st)
                               (Replied false body now))) = totalComments st /\
    snd (settle (addComment env content parentId st) (Replied false body now))
      = None /\
    error (fst (settle (addComment env content parentId st)
                       (Replied false body now)))
      = Some (Failure "Failed to add comment") /\
    isLoading (fst (settle (addComment env content parentId st)
                           (Replied false body now))) = false.
Proof.
  intros env content parentId st body now Hauth Hfresh.
  unfold addComment. rewrite Hauth. simpl.
  set (o := optimisticCommentOf env content parentId).
  assert (Ho : idEq (id o) (id o) = true) by (simpl; apply Z.eqb_refl).
  split; [| split; [| repeat split]].
  - apply (revert_after_insert parentId o (comments st) Ho Hfresh
             (setError None st)); reflexivity.
  - destruct (revertOptimistic_meta parentId o
                (setIsLoading true (insertOptimistic parentId o (setError None st))))
      as [T _].
    destruct (insertOptimistic_meta parentId o (setError None st)) as [T' _].
    simpl in *. rewrite T.
    destruct (noParent parentId); simpl in *; rewrite T'; simpl; lia.
Qed.

(** A reply to comment 1 of the thread is refused by the server. *)
Lemma addComment_failure_restores_tree_witness :
  isAuthenticated signedIn = true /\
  freshIn signedIn (comments (stateOf thread)) /\
  comments (fst (settle (addComment signedIn "re" (Some 1) (stateOf thread))
                        (Replied false (Parsed Null) "2024-05-01T10:00:02.000Z")))
    = comments (stateOf thread).
Proof.
  assert (H : freshIn signedIn (comments (stateOf thread))).
  { repeat constructor. }
  split; [reflexivity |]. split; [exact H |].
  apply (addComment_failure_restores_tree signedIn "re" (Some 1) (stateOf thread)
           (Parsed Null) "2024-05-01T10:00:02.000Z" eq_refl H).
Defined.

(** X16. When an authenticated submission succeeds and the comment can
    be read from the body, the tree is the one the reconciled record
    would have given had it been inserted in the first place (in front
    for a root comment, last among the replies of a root parent),
    provided no comment had the optimistic id; the reconciled record is
    returned, no error is set and the total stays as the insertion left
    it. *)
Theorem addComment_success_is_insertion_of_merged :
  forall (env : Env) (content : string) (parentId : option Z) (st : State)
         (v raw : any) (now : string),
    isAuthenticated env = true ->
    freshIn env (comments st) ->
    rawCommentOf v = Ok raw ->
    exists merged,
      merged = mergeAdded (optimisticCommentOf env content parentId)
                          (transformComment now raw (materialId env)) /\
      snd (settle (addComment env content parentId st)
                  (Replied true (Parsed v) now)) = Some merged /\
      comments (fst (settle (addComment env content parentId st)
                            (Replied true (Parsed v) now)))
        = comments (insertOptimistic parentId merged st) /\
      totalComments (fst (settle (addComment env content parentId st)
                                 (Replied true (Parsed v) now)))
        = totalComments (insertOptimistic parentId merged st) /\
      error (fst (settle (addComment env content parentId st)
                         (Replied true (Parsed v) now))) = None.
Proof.
  intros env content parentId st v raw now Hauth Hfresh Hraw.
  unfold addComment. rewrite Hauth. simpl. rewrite Hraw. simpl.
  set (o := optimisticCommentOf env content parentId).
  set (m := mergeAdded o (transformComment now raw (materialId env))).
  assert (Ho : idEq (id o) (id o) = true) by (simpl; apply Z.eqb_refl).
  exists m. split; [reflexivity |]. split; [reflexivity |].
  split; [| split].
  - rewrite (replace_after_insert parentId o m (comments st) Ho Hfresh
               (setError None st)
               (setIsLoading true (insertOptimistic parentId o (setError None st))));
      try reflexivity.
    unfold insertOptimistic. destruct (noParent parentId); reflexivity.
  - destruct (replaceOptimistic_meta parentId o m
                (setIsLoading true (insertOptimistic parentId o (setError None st))))
      as [T _].
    simpl in *. rewrite T.
    unfold insertOptimistic. destruct (noParent parentId); reflexivity.
  - unfold replaceOptimistic, insertOptimistic.
    destruct (noParent parentId); reflexivity.
Qed.

(** "Hello" posted on the thread and answered with the stored record. *)
Lemma addComment_success_is_insertion_of_merged_witness :
  isAuthenticated signedIn = true /\
  freshIn signedIn (comments (stateOf thread)) /\
  rawCommentOf created = Ok created /\
  comments (fst (settle (addComment signedIn "Hello" None (stateOf thread))
                        (Replied true (Parsed created) "2024-05-01T10:00:02.000Z")))
    = helloMerged :: thread.
Proof.
  assert (H : freshIn signedIn (comments (stateOf thread))).
  { repeat constructor. }
  split; [reflexivity |]. split; [exact H |]. split; [reflexivity |].
  destruct (addComment_success_is_insertion_of_merged signedIn "Hello" None
              (stateOf thread) created created "2024-05-01T10:00:02.000Z"
              eq_refl H eq_refl) as (merged & E & _ & C & _).
  rewrite C, E. reflexivity.
Defined.

(** X17. When the request of an authenticated submission is rejected, or
    its success body cannot be parsed, the optimistic comment is not
    removed: the tree and the total are as the insertion left them,
    nothing is returned and the error is the message of the failure. *)
Theorem addComment_rejection_keeps_optimistic :
  forall (env : Env) (content : string) (parentId : option Z) (st : State)
         (response : Response) (m : string),
    isAuthenticated env = true ->
    (response = Rejected m \/
     exists now, response = Replied true (NotParsed m) now) ->
    comments (fst (settle (addComment env content parentId st) response))
      = comments (insertOptimistic parentId
                    (optimisticCommentOf env content parentId) st) /\
    totalComments (fst (settle (addComment env content parentId st) response))
      = totalComments (insertOptimistic parentId
                         (optimisticCommentOf env content parentId) st) /\
    snd (settle (addComment env content parentId st) response) = None /\
    error (fst (settle (addComment env content parentId st) response))
      = Some (Failure m).
Proof.
  intros env content parentId st response m Hauth [-> | [now ->]];
    unfold addComment; rewrite Hauth; simpl;
    unfold insertOptimistic; destruct (noParent parentId); repeat split.
Qed.

Lemma addComment_rejection_keeps_optimistic_witness :
  isAuthenticated signedIn = true /\
  comments (fst (settle (addComment signedIn "Hello" None (stateOf thread))
                        (Rejected "Failed to fetch")))
    = helloOptimistic :: thread.
Proof.
  split; [reflexivity |].
  apply (addComment_rejection_keeps_optimistic signedIn "Hello" None (stateOf thread)
           (Rejected "Failed to fetch") "Failed to fetch" eq_refl).
  left. reflexivity.
Defined.

(** ** The forms *)

Lemma addComment_returns :
  forall env content parentId st response,
    if isAuthenticated env && delivers response
    then exists c, snd (settle (addComment env content parentId st) response) = Some c
    else snd (settle (addComment env content parentId st) response) = None.
Proof.
  intros env content parentId st response. unfold addComment.
  destruct (isAuthenticated env); simpl; [| reflexivity].
  destruct response as [m | [ | ] [m | v] now]; simpl; try reflexivity.
  destruct (rawCommentOf v); simpl; [eexists |]; reflexivity.
Qed.

Lemma thenForms_settle :
  forall after a response,
    settle (thenForms after a) response =
      (fst (settle a response), whenAdded after (snd (settle a response))).
Proof. intros after [s r | s req k] response; reflexivity. Qed.

(** X18. Submitting the new comment clears its draft exactly when the
    draft was not blank, the user is authenticated and the response
    delivers the comment; in every other case (blank draft, no session,
    rejected request, status not ok, unreadable body) the forms are left
    as they are, so the text can be sent again.  The reply form is never
    touched. *)
Theorem handleSubmitComment_clears_draft_on_success_only :
  forall (blank : string -> bool) (env : Env) (form : Form) (st : State)
         (response : Response) (f : Form),
    snd (settle (handleSubmitComment blank env form st) response) f =
      if negb (blank (newComment form)) && isAuthenticated env && delivers response
      then setNewComment "" f
      else f.
Proof.
  intros blank env form st response f. unfold handleSubmitComment.
  destruct (blank (newComment form)); simpl; [reflexivity |].
  rewrite thenForms_settle. simpl.
  pose proof (addComment_returns env (newComment form) None st response) as R.
  destruct (isAuthenticated env && delivers response); simpl.
  - destruct R as [c ->]. reflexivity.
  - rewrite R. reflexivity.
Qed.

(** X19. Submitting a reply clears the reply form (target and text)
    exactly when a target is set, the text is not blank, the user is
    authenticated and the response delivers the comment; in every other
    case the forms are left as they are.  The draft of the new comment is
    never touched. *)
Theorem handleSubmitReply_clears_form_on_success_only :
  forall (blank : string -> bool) (env : Env) (form : Form) (st : State)
         (response : Response) (f : Form),
    snd (settle (handleSubmitReply blank env form st) response) f =
      if match replyTo form with Some _ => true | None => false end
         && negb (blank (replyContent form))
         && isAuthenticated env && delivers response
      then mkForm (newComment f) None ""
      else f.
Proof.
  intros blank env form st response f. unfold handleSubmitReply.
  destruct (replyTo form) as [target |]; simpl; [| reflexivity].
  destruct (blank (replyContent form)); simpl; [reflexivity |].
  rewrite thenForms_settle. simpl.
  pose proof (addComment_returns env (replyContent form) (id target) st response) as R.
  destruct (isAuthenticated env && delivers response); simpl.
  - destruct R as [c ->]. reflexivity.
  - rewrite R. reflexivity.
Qed.

(** ** Breaking long words *)

Lemma visible_app : forall a b, visible (a ++ b) = visible a ++ visible b.
Proof. intros. apply filter_app. Qed.

Lemma visible_breakFrom :
  forall rest j len, visible (List.concat (breakFrom j len rest)) = visible rest.
Proof.
  induction rest as [| c r IH]; intros j len; [reflexivity |].
  cbn [breakFrom List.concat app].
  destruct ((j <? len - 1)%nat && ((j + 1) mod 10 =? 0)%nat);
    cbn [List.concat app]; unfold visible in *; simpl; rewrite IH; reflexivity.
Qed.

Lemma visible_wordNodes :
  forall w, visible (List.concat (wordNodes w)) = visible w.
Proof.
  intros w. unfold wordNodes. destruct (isLong w).
  - apply visible_breakFrom.
  - simpl. now rewrite app_nil_r.
Qed.

Lemma visible_fragmentOf :
  forall words,
    visible (List.concat (fragmentOf words)) = visible (joinWithSpace words).
Proof.
  induction words as [| w ws IH]; [reflexivity |].
  destruct ws as [| w' ws'].
  - apply visible_wordNodes.
  - change (fragmentOf (w :: w' :: ws'))
      with (wordNodes w ++ [spaceUnit] :: fragmentOf (w' :: ws')).
    change (joinWithSpace (w :: w' :: ws'))
      with (w ++ spaceUnit :: joinWithSpace (w' :: ws')).
    rewrite concat_app, !visible_app, visible_wordNodes. f_equal.
    change (List.concat ([spaceUnit] :: fragmentOf (w' :: ws')))
      with (spaceUnit :: List.concat (fragmentOf (w' :: ws'))).
    change (visible (spaceUnit :: List.concat (fragmentOf (w' :: ws'))))
      with (spaceUnit :: visible (List.concat (fragmentOf (w' :: ws')))).
    change (visible (spaceUnit :: joinWithSpace (w' :: ws')))
      with (spaceUnit :: visible (joinWithSpace (w' :: ws'))).
    now rewrite IH.
Qed.

(** X20. Breaking the long words of a text loses nothing: without the
    zero-width spaces, the text of the nodes put in its place is the
    words of the text with one space between them. *)
Theorem breakLongWords_keeps_text :
  forall (text : list Z) (nodes' : list (list Z)),
    breakLongWords text = Some nodes' ->
    visible (List.concat nodes') = visible (joinWithSpace (splitOnSpaces text)).
Proof.
  intros text nodes' H. unfold breakLongWords in H.
  destruct (existsb isLong (splitOnSpaces text)); [| discriminate].
  injection H as <-. apply visible_fragmentOf.
Qed.

Lemma breakLongWords_keeps_text_witness :
  exists nodes',
    breakLongWords (longWord ++ [32; 32; 98]) = Some nodes' /\
    visible (List.concat nodes') = longWord ++ [32; 98].
Proof.
  eexists. split; [reflexivity |].
  exact (breakLongWords_keeps_text (longWord ++ [32; 32; 98]) _ eq_refl).
Defined.

Lemma next_index_mod :
  forall j, ((j + 1) mod 10 <> 0 -> S j mod 10 = j mod 10 + 1)%nat.
Proof.
  intros j H.
  pose proof (Nat.div_mod_eq j 10). pose proof (Nat.div_mod_eq (j + 1) 10).
  pose proof (Nat.mod_upper_bound j 10). pose proof (Nat.mod_upper_bound (j + 1) 10).
  replace (S j) with (j + 1)%nat by lia.
  nia.
Qed.

Lemma longestStretch_breakFrom :
  forall rest j len cur,
    (j + List.length rest = len)%nat ->
    (cur <= j mod 10)%nat ->
    (longestStretch cur (List.concat (breakFrom j len rest)) <= 10)%nat.
Proof.
  induction rest as [| c r IH]; intros j len cur Hlen Hcur;
    pose proof (Nat.mod_upper_bound j 10 ltac:(discriminate)) as Hb.
  - cbn [breakFrom List.concat longestStretch]. lia.
  - cbn [breakFrom List.concat app longestStretch].
    cbn [List.length] in Hlen.
    assert (IH0 : (longestStretch 0 (List.concat (breakFrom (S j) len r)) <= 10)%nat).
    { apply IH; lia. }
    destruct (c =? zeroWidthSpace).
    + destruct ((j <? len - 1)%nat && ((j + 1) mod 10 =? 0)%nat);
        cbn [List.concat app longestStretch]; rewrite ?Z.eqb_refl; lia.
    + destruct ((j <? len - 1)%nat) eqn:Hj; cbn [andb].
      * destruct (((j + 1) mod 10 =? 0)%nat) eqn:Hm.
        -- cbn [List.concat app longestStretch]. rewrite Z.eqb_refl. lia.
        -- apply Nat.eqb_neq in Hm. apply next_index_mod in Hm.
           apply IH; lia.
      * apply Nat.ltb_ge in Hj.
        destruct r; [cbn [breakFrom List.concat longestStretch]; lia
                    | cbn [List.length] in Hlen; lia].
Qed.

(** X21. In the nodes put in place of a long word, no stretch of more
    than ten code units is without a zero-width space. *)
Theorem wordNodes_breaks_every_ten :
  forall (word : list Z),
    isLong word = true ->
    (longestStretch 0 (List.concat (wordNodes word)) <= 10)%nat.
Proof.
  intros word H. unfold wordNodes. rewrite H.
  apply longestStretch_breakFrom; [reflexivity | apply Nat.le_0_l].
Qed.

Lemma wordNodes_breaks_every_ten_witness :
  isLong longWord = true /\
  (longestStretch 0 (List.concat (wordNodes longWord)) <= 10)%nat.
Proof.
  split; [reflexivity |].
  apply (wordNodes_breaks_every_ten longWord eq_refl).
Defined.

(** X22. When a toggle succeeds and the response carries no comment, the
    optimistic update stands: the tree is the one it produced, and the
    comment found under the id is the one found before with its count
    moved by one and the state read before the toggle negated. *)
Theorem toggleCommentLike_success_without_comment :
  forall (env : Env) (t : Z) (st : State) (v : any) (now : string),
    isAuthenticated env = true ->
    carriedComment v = None ->
    comments (fst (settle (toggleCommentLike env t st)
                          (Replied true (Parsed v) now)))
      = updateCommentLikes (comments st) t
          (negb (findLikedStatus (comments st) t)) /\
    findComment
      (comments (fst (settle (toggleCommentLike env t st)
                             (Replied true (Parsed v) now)))) t
      = option_map
          (fun c =>
             withLikes c
               (likes_count c +
                (if negb (findLikedStatus (comments st) t) then 1 else -1))
               (negb (findLikedStatus (comments st) t)))
          (findComment (comments st) t).
Proof.
  intros env t st v now Hauth Hc.
  assert (E : comments (fst (settle (toggleCommentLike env t st)
                                    (Replied true (Parsed v) now)))
              = updateCommentLikes (comments st) t
                  (negb (findLikedStatus (comments st) t))).
  { unfold toggleCommentLike. rewrite Hauth. simpl.
    unfold carriedComment in Hc.
    destruct (prop (@o_data any) v) as [data | e]; simpl; [| reflexivity].
    destruct (truthy data) eqn:Hd; simpl.
    - destruct (prop (@o_comment any) data) as [c | e]; simpl; [| reflexivity].
      destruct (truthy c); [discriminate | reflexivity].
    - rewrite Hd. reflexivity. }
  split; [exact E |].
  rewrite E. apply findComment_after_like.
Qed.

(** The like of comment 1 succeeds with an empty body. *)
Lemma toggleCommentLike_success_without_comment_witness :
  isAuthenticated signedIn = true /\
  carriedComment (Obj emptyObject) = None /\
  findComment
    (comments (fst (settle (toggleCommentLike signedIn 1 (stateOf twoRoots))
                           (Replied true (Parsed (Obj emptyObject))
                                    "2024-05-01T10:00:02.000Z")))) 1
    = Some (simpleComment 1 1 true []).
Proof.
  split; [reflexivity |]. split; [reflexivity |].
  rewrite (proj2 (toggleCommentLike_success_without_comment signedIn 1
                    (stateOf twoRoots) (Obj emptyObject)
                    "2024-05-01T10:00:02.000Z" eq_refl eq_refl)).
  reflexivity.
Defined.

(** ** The authorization the route handlers forward *)

Lemma prefix_bearer :
  forall t, String.prefix "Bearer " ("Bearer " ++ t) = true.
Proof. intros t. simpl. destruct t; reflexivity. Qed.


Lemma splitOn_head :
  forall s, exists w ws rest,
    splitOn " " s = w :: ws /\
    s = (w ++ rest)%string /\
    hasSpace w = false /\
    (rest = ""%string \/ exists r, rest = String " " r) /\
    (hasSpace s = false -> w = s /\ ws = []).
Proof.
  induction s as [| c r (w & ws & rest & E & D & Hw & Hr & Hs)]; simpl.
  - exists EmptyString, [], EmptyString. repeat split; auto.
  - destruct (Ascii.eqb c " ") eqn:Hc; simpl.
    + apply Ascii.eqb_eq in Hc. subst c.
      exists EmptyString, (splitOn " " r), (String " " r).
      repeat split; try discriminate. right. now exists r.
    + rewrite E. exists (String c w), ws, rest. simpl. rewrite Hc, Hw.
      split; [reflexivity |]. split; [now rewrite <- D |].
      split; [reflexivity |]. split; [exact Hr |].
      intros H. destruct (Hs H) as [-> ->]. split; reflexivity.
Qed.

(** X24. The handler of a user's activities answers 401 without calling
    the backend when the authorization header is missing or does not
    start with "Bearer ".  Otherwise it calls the backend with "Bearer "
    followed by the token up to its first space: the received token is
    the forwarded one, which has no space, followed by nothing or by a
    space and the rest.  So the header itself is forwarded when the token
    has no space. *)
Theorem activitiesHandler_authorization :
  forall (authHeader limit offset : option string),
    (authHeader = None \/
     (exists h, authHeader = Some h /\ String.prefix "Bearer " h = false) ->
       activitiesHandler authHeader limit offset =
         Respond 401 "Missing or invalid authorization header") /\
    (forall t,
       authHeader = Some ("Bearer " ++ t)%string ->
       exists token rest,
         activitiesHandler authHeader limit offset =
           CallBackend ("Bearer " ++ token) (paramOr limit "20") (paramOr offset "0") /\
         t = (token ++ rest)%string /\
         hasSpace token = false /\
         (rest = ""%string \/ exists r, rest = String " " r) /\
         (hasSpace t = false -> token = t)).
Proof.
  intros authHeader limit offset. split.
  - intros [-> | (h & -> & P)]; [reflexivity |].
    unfold activitiesHandler. rewrite P. simpl. now rewrite orb_true_r.
  - intros t ->. unfold activitiesHandler.
    rewrite prefix_bearer.
    change (("Bearer " ++ t =? "")%string) with false.
    cbn [orb negb].
    destruct (splitOn_head t) as (w & ws & rest & E & D & Hw & Hr & Hs).
    exists w, rest. split.
    + f_equal. f_equal. simpl. rewrite E. reflexivity.
    + split; [exact D |]. split; [exact Hw |]. split; [exact Hr |].
      intros H. now destruct (Hs H).
Qed.

(** A header with a token without spaces, and a missing header. *)
Lemma activitiesHandler_authorization_witness :
  activitiesHandler (Some "Bearer abc.def"%string) None (Some "5"%string) =
    CallBackend "Bearer abc.def" "20" "5" /\
  activitiesHandler None None None =
    Respond 401 "Missing or invalid authorization header".
Proof.
  split.
  - destruct (proj2 (activitiesHandler_authorization
                       (Some "Bearer abc.def"%string) None (Some "5"%string))
                    "abc.def"%string eq_refl) as (token & rest & E & _ & _ & _ & T).
    rewrite E, (T eq_refl). reflexivity.
  - apply (proj1 (activitiesHandler_authorization None None None)).
    left. reflexivity.
Defined.

(** ** Registering for an event *)



